(** * EditTask: the edit-task dialog of the to-do application

    A shallow embedding of [src/components/EditTask.tsx].  The component is
    a React function component: five [useState] cells, three [useEffect]
    hooks and a handful of event handlers.  The embedding keeps that shape:

    - JavaScript objects are finite maps from property names to values
      ([gmap string value]); the spread [{...prev, k: v}] is a map insert;
    - a handler is an [Action] on the pending state; what it reads from its
      closure (the props and the state of the render that created it) is an
      explicit argument;
    - calls to collaborators ([onClose], [onSave], the toast, the write to
      [document.body.style.overflow]) are recorded, in order, in a trace;
    - after every event the component is rendered again and the effects
      whose dependencies changed are run, until nothing changes. *)

From stdpp Require Import base decidable option list strings gmap.

Open Scope string_scope.
Open Scope list_scope.

Section EditTask.

(** [Category] comes from [../types/user] and the two limits from
    [../constants]; the component passes categories through unchanged and
    only compares lengths with the limits. *)
Variable Category : Type.
Variable TASK_NAME_MAX_LENGTH : nat.
Variable DESCRIPTION_MAX_LENGTH : nat.

(** ** JavaScript values *)

(** The values a task property can hold at run time.  Arrays and other
    objects are references: they carry the address that [Object.is]
    compares.  Numbers are carried through and never computed with.  A
    character of a [string] stands for one UTF-16 code unit, so that
    [String.length] is the [length] of the JavaScript string. *)
Inductive value :=
  | VUndefined
  | VNull
  | VBool (b : bool)
  | VNumber (n : Z)
  | VString (s : string)
  | VArray (ref : nat) (items : list Category)
  | VObject (ref : nat).

(** A task object, and the draft, as the property map it is at run time. *)
Abbreviation Task := (gmap string value).

(** Truthiness, as [||], [&&] and [?:] test it. *)
Definition truthy (v : value) : bool :=
  match v with
  | VUndefined | VNull => false
  | VBool b => b
  | VNumber n => negb (n =? 0)%Z
  | VString s => negb (bool_decide (s = ""))
  | VArray _ _ | VObject _ => true
  end.

(** [a || b] *)
Definition js_or (a b : value) : value := if truthy a then a else b.

(** [Object.is], React's comparison of dependencies. *)
Definition object_is (a b : value) : bool :=
  match a, b with
  | VUndefined, VUndefined => true
  | VNull, VNull => true
  | VBool x, VBool y => bool_decide (x = y)
  | VNumber x, VNumber y => bool_decide (x = y)
  | VString x, VString y => bool_decide (x = y)
  | VArray x _, VArray y _ => bool_decide (x = y)
  | VObject x, VObject y => bool_decide (x = y)
  | _, _ => false
  end.

(** [a === b]; the two differ on [NaN] and the signed zeros only, which
    the integral numbers of this model do not have. *)
Definition strict_eq (a b : value) : bool := object_is a b.

(** [o.k]: an absent property reads as [undefined]. *)
Definition get (o : Task) (k : string) : value := default VUndefined (o !! k).

(** [o?.k] on a possibly undefined object. *)
Definition opt_get (o : option Task) (k : string) : value :=
  match o with
  | Some t => get t k
  | None => VUndefined
  end.

(** [...(o as Task)] inside an object literal: spreading [undefined] adds
    no property. *)
Definition spread (o : option Task) : Task := default ∅ o.

(** A [string | undefined] as a value. *)
Definition string_or_undefined (s : option string) : value :=
  match s with
  | Some x => VString x
  | None => VUndefined
  end.

(** Two objects with the same value at every property.  An object that has
    a property set to [undefined] and one that lacks it read the same. *)
Definition same_values (a b : Task) : Prop := ∀ k, get a k = get b k.

(** The task's [category] has its declared type [Category[] | undefined]. *)
Definition category_typed (t : Task) : Prop :=
  get t "category" = VUndefined ∨ ∃ ref items, get t "category" = VArray ref items.

(** ** Props, state and calls *)

(** The [task] prop is a reference: the address of the task object and the
    object found there.  [onClose] and [onSave] are callbacks of the parent;
    calling them is recorded as a [Call]. *)
Record EditTaskProps := {
  open : bool;
  task : option (nat * Task);
}.

Definition task_object (p : EditTaskProps) : option Task := snd <$> task p.
Definition task_address (p : EditTaskProps) : option nat := fst <$> task p.

Record State := {
  editedTask : option Task;
  nameError : bool;
  descriptionError : bool;
  emoji : option string;
  selectedCategories : value;
}.

Inductive Call :=
  | OnClose
  | OnSave (editedTask : Task)
  | ToastSuccess (name : value)
  | SetBodyOverflow (overflow : string).

(** The draft and the selection hold the values of the task [t]: every
    property of the draft reads as in [t], the draft is [t] itself when [t]
    has a [category] property, and the selection is [t.category]. *)
Definition mirrors (st : State) (t : Task) : Prop :=
  (∃ d, editedTask st = Some d ∧ same_values d t
        ∧ (is_Some (t !! "category") → d = t))
  ∧ selectedCategories st = get t "category".

(** ** Actions: queued state updates and recorded calls *)

Definition Action := State → State * list Call.

Definition skip : Action := λ s, (s, []).

Definition call (c : Call) : Action := λ s, (s, [c]).

Definition andThen (a b : Action) : Action := λ s,
  let '(s1, c1) := a s in
  let '(s2, c2) := b s1 in
  (s2, c1 ++ c2).

Notation "a >> b" := (andThen a b) (at level 90, right associativity).

Definition when (b : bool) (a : Action) : Action := if b then a else skip.

(** The state with one cell replaced. *)
Definition withEditedTask (t : option Task) (s : State) : State :=
  {| editedTask := t; nameError := nameError s;
     descriptionError := descriptionError s; emoji := emoji s;
     selectedCategories := selectedCategories s |}.

Definition withNameError (b : bool) (s : State) : State :=
  {| editedTask := editedTask s; nameError := b;
     descriptionError := descriptionError s; emoji := emoji s;
     selectedCategories := selectedCategories s |}.

Definition withDescriptionError (b : bool) (s : State) : State :=
  {| editedTask := editedTask s; nameError := nameError s;
     descriptionError := b; emoji := emoji s;
     selectedCategories := selectedCategories s |}.

Definition withEmoji (e : option string) (s : State) : State :=
  {| editedTask := editedTask s; nameError := nameError s;
     descriptionError := descriptionError s; emoji := e;
     selectedCategories := selectedCategories s |}.

Definition withSelectedCategories (v : value) (s : State) : State :=
  {| editedTask := editedTask s; nameError := nameError s;
     descriptionError := descriptionError s; emoji := emoji s;
     selectedCategories := v |}.

(** The setters returned by [useState]. *)
Definition setEditedTask (t : option Task) : Action := λ s,
  (withEditedTask t s, []).

(** [setEditedTask((prevTask) => ...)] *)
Definition updateEditedTask (f : option Task → Task) : Action := λ s,
  (withEditedTask (Some (f (editedTask s))) s, []).

Definition setNameError (b : bool) : Action := λ s, (withNameError b s, []).

Definition setDescriptionError (b : bool) : Action := λ s,
  (withDescriptionError b s, []).

Definition setEmoji (e : option string) : Action := λ s, (withEmoji e s, []).

Definition setSelectedCategories (v : value) : Action := λ s,
  (withSelectedCategories v s, []).

(** ** The component *)

(** [useState] initial values.  The array literal [[]] is a fresh array,
    allocated at [fresh]. *)
Definition initialState (p : EditTaskProps) (fresh : nat) : State :=
  {| editedTask := task_object p; nameError := false;
     descriptionError := false; emoji := None;
     selectedCategories := VArray fresh [] |}.

(** Effect on [[emoji]]; [st] is the state of the render it closes over. *)
Definition emojiEffect (st : State) : Action :=
  updateEditedTask (λ prevTask,
    <["emoji" := string_or_undefined (emoji st)]> (spread prevTask)).

(** Effect on [[task]]. *)
Definition taskEffect (p : EditTaskProps) : Action :=
  setEditedTask (task_object p) >>
  setSelectedCategories (opt_get (task_object p) "category").

(** Effect on [[selectedCategories]]. *)
Definition categoriesEffect (st : State) : Action :=
  updateEditedTask (λ prevTask,
    <["category" := js_or (selectedCategories st) VUndefined]>
      (spread prevTask)).

(** [event.target] is [{name, value}]. *)
Definition handleInputChange (name value : string) : Action :=
  (if bool_decide (name = "name")
      && (TASK_NAME_MAX_LENGTH <? String.length value)%nat
   then setNameError true
   else setNameError false) >>
  (if bool_decide (name = "description")
      && (DESCRIPTION_MAX_LENGTH <? String.length value)%nat
   then setDescriptionError true
   else setDescriptionError false) >>
  updateEditedTask (λ prevTask, <[name := VString value]> (spread prevTask)).

Definition handleSave (st : State) : Action :=
  call (SetBodyOverflow "auto") >>
  match editedTask st with
  | Some t =>
      if negb (nameError st) && negb (descriptionError st)
      then call (OnSave t) >> call (ToastSuccess (get t "name"))
      else skip
  | None => skip
  end.

Definition handleCancel (p : EditTaskProps) : Action :=
  call OnClose >>
  setEditedTask (task_object p) >>
  setSelectedCategories (opt_get (task_object p) "category").

(** The [onClose] of the [Dialog] (backdrop click, escape key). *)
Definition dialogOnClose (p : EditTaskProps) : Action :=
  call OnClose >>
  setEditedTask (task_object p) >>
  setSelectedCategories (opt_get (task_object p) "category").

(** The clear button of the deadline field. *)
Definition clearDeadline : Action :=
  updateEditedTask (λ prevTask,
    <["deadline" := VUndefined]> (spread prevTask)).

Definition onColorChange (color : string) : Action :=
  updateEditedTask (λ prevTask,
    <["color" := VString color]> (spread prevTask)).

(** [disabled] of the Save button. *)
Definition saveDisabled (st : State) : bool :=
  nameError st || strict_eq (opt_get (editedTask st) "name") (VString "").

(** The deadline field shows its clear button. *)
Definition clearShown (st : State) : bool :=
  truthy (opt_get (editedTask st) "deadline").

(** ** Rendering and effects *)

(** The dependency arrays [[emoji]], [[task]] and [[selectedCategories]] of
    one render.  The task is compared as a reference, by its address. *)
Record Deps := {
  dep_emoji : option string;
  dep_task : option nat;
  dep_selectedCategories : value;
}.

Definition deps (p : EditTaskProps) (st : State) : Deps :=
  {| dep_emoji := emoji st; dep_task := task_address p;
     dep_selectedCategories := selectedCategories st |}.

Definition same_deps (a b : Deps) : bool :=
  bool_decide (dep_emoji a = dep_emoji b)
  && bool_decide (dep_task a = dep_task b)
  && object_is (dep_selectedCategories a) (dep_selectedCategories b).

(** Does a dependency differ from the previous render's?  On the first
    render there is no previous one and every effect runs. *)
Definition changed (prev : option Deps) (differs : Deps → bool) : bool :=
  match prev with
  | None => true
  | Some d => differs d
  end.

(** The effects of the render of [p] and [st], in the order of their
    declaration.  Their updates are queued on the pending state. *)
Definition useEffects (prev : option Deps) (p : EditTaskProps) (st : State)
  : Action :=
  let cur := deps p st in
  when (changed prev (λ d, negb (bool_decide (dep_emoji d = dep_emoji cur))))
    (emojiEffect st) >>
  when (changed prev (λ d, negb (bool_decide (dep_task d = dep_task cur))))
    (taskEffect p) >>
  when (changed prev (λ d,
          negb (object_is (dep_selectedCategories d)
                          (dep_selectedCategories cur))))
    (categoriesEffect st).

(** Render, run the effects whose dependencies changed, and render again
    while they keep changing.  React gives up after
    [NESTED_UPDATE_LIMIT] nested updates; [None] is that failure. *)
Fixpoint commit (fuel : nat) (prev : option Deps) (p : EditTaskProps)
    (st : State) : option (State * list Call) :=
  match fuel with
  | 0 => None
  | S fuel' =>
      if changed prev (λ d, negb (same_deps d (deps p st))) then
        let '(st', calls) := useEffects prev p st st in
        match commit fuel' (Some (deps p st)) p st' with
        | Some (st'', calls') => Some (st'', calls ++ calls')
        | None => None
        end
      else Some (st, [])
  end.

Definition NESTED_UPDATE_LIMIT : nat := 50.

(** ** Events *)

(** The three inputs wired to [handleInputChange], by their [name]
    attribute. *)
Inductive Field := FName | FDescription | FDeadline.

Definition field_name (f : Field) : string :=
  match f with
  | FName => "name"
  | FDescription => "description"
  | FDeadline => "deadline"
  end.

Inductive Event :=
  | Rerender (p : EditTaskProps)
  | InputChange (f : Field) (value : string)
  | ClearDeadline
  | PickEmoji (e : option string)
  | SelectCategories (ref : nat) (items : list Category)
  | ColorChange (color : string)
  | Save
  | Cancel
  | DialogClose.

(** A mounted component: the props and the state of its last render. *)
Record Component := {
  props : EditTaskProps;
  state : State;
}.

Definition handler (c : Component) (e : Event) : Action :=
  match e with
  | Rerender _ => skip
  | InputChange f v => handleInputChange (field_name f) v
  | ClearDeadline => clearDeadline
  | PickEmoji e => setEmoji e
  | SelectCategories ref items => setSelectedCategories (VArray ref items)
  | ColorChange color => onColorChange color
  | Save => handleSave (state c)
  | Cancel => handleCancel (props c)
  | DialogClose => dialogOnClose (props c)
  end.

Definition next_props (c : Component) (e : Event) : EditTaskProps :=
  match e with
  | Rerender p => p
  | _ => props c
  end.

Definition mount (p : EditTaskProps) (fresh : nat)
  : option (Component * list Call) :=
  match commit NESTED_UPDATE_LIMIT None p (initialState p fresh) with
  | Some (st, calls) => Some ({| props := p; state := st |}, calls)
  | None => None
  end.

(** One event: its handler runs on the closure of the last render, then
    the component is rendered with the new props and state. *)
Definition step (c : Component) (e : Event) : option (Component * list Call) :=
  let '(st, calls) := handler c e (state c) in
  match commit NESTED_UPDATE_LIMIT (Some (deps (props c) (state c)))
               (next_props c e) st with
  | Some (st', calls') =>
      Some ({| props := next_props c e; state := st' |}, calls ++ calls')
  | None => None
  end.

(** Which controls the render of [st] offers.  [enableCategories] is the
    user setting read from [UserContext]. *)
Definition offered (enableCategories : bool) (st : State) (e : Event) : bool :=
  match e with
  | Save => negb (saveDisabled st)
  | ClearDeadline => clearShown st
  | SelectCategories _ _ => enableCategories
  | _ => true
  end.

(** ** What the form shows *)

(** [value={editedTask?.name || ""}], and the same for the description and
    the deadline inputs. *)
Definition inputValue (st : State) (f : Field) : value :=
  js_or (opt_get (editedTask st) (field_name f)) (VString "").

(** [color={editedTask?.color || "#000000"}] of the color picker. *)
Definition pickerColor (st : State) : value :=
  js_or (opt_get (editedTask st) "color") (VString "#000000").

(** ** Runs of events *)

Fixpoint run (c : Component) (es : list Event) : option (Component * list Call) :=
  match es with
  | [] => Some (c, [])
  | e :: es' =>
      match step c e with
      | Some (c', calls) =>
          match run c' es' with
          | Some (c'', calls') => Some (c'', calls ++ calls')
          | None => None
          end
      | None => None
      end
  end.

(** The task of the props, when there is one, has a [category] of its
    declared type; an event brings only such props. *)
Definition props_typed (p : EditTaskProps) : Prop :=
  match task_object p with
  | Some t => category_typed t
  | None => True
  end.

Definition event_typed (e : Event) : Prop :=
  match e with
  | Rerender p => props_typed p
  | _ => True
  end.

(** The draft's [category] and the selection are the same reference. *)
Definition in_sync (st : State) : Prop :=
  object_is (opt_get (editedTask st) "category")
            (js_or (selectedCategories st) VUndefined) = true.

(** ** Edits of the draft *)

(** The events by which the user edits the draft. *)
Definition is_edit (e : Event) : Prop :=
  match e with
  | InputChange _ _ | ClearDeadline | PickEmoji _ | SelectCategories _ _
  | ColorChange _ => True
  | _ => False
  end.

(** The draft property an edit is about, and the value the user gave. *)
Definition edit_of (e : Event) : option (string * value) :=
  match e with
  | InputChange f v => Some (field_name f, VString v)
  | ClearDeadline => Some ("deadline", VUndefined)
  | PickEmoji e => Some ("emoji", string_or_undefined e)
  | SelectCategories ref items => Some ("category", VArray ref items)
  | ColorChange color => Some ("color", VString color)
  | _ => None
  end.

(** The value [e] gives to property [k], when [e] is about [k]. *)
Definition edit_at (e : Event) (k : string) : option value :=
  match edit_of e with
  | Some (k', v) => if decide (k' = k) then Some v else None
  | None => None
  end.

(** The value the last edit of property [k] in [es] gave, when [es] has
    an edit of [k]. *)
Fixpoint last_edit (es : list Event) (k : string) : option value :=
  match es with
  | [] => None
  | e :: es' =>
      match last_edit es' k with
      | Some v => Some v
      | None => edit_at e k
      end
  end.

(** The emoji the picker reported last: [cell] before [es], then the last
    pick of [es]. *)
Fixpoint last_pick (cell : option string) (es : list Event) : option string :=
  match es with
  | [] => cell
  | PickEmoji e :: es' => last_pick e es'
  | _ :: es' => last_pick cell es'
  end.

(** Some pick of [es] reports another emoji than [cell]. *)
Fixpoint picks_other (cell : option string) (es : list Event) : bool :=
  match es with
  | [] => false
  | PickEmoji e :: es' => negb (bool_decide (e = cell)) || picks_other cell es'
  | _ :: es' => picks_other cell es'
  end.

(** ** A running example *)

(** The task of the specification's example, [{name: "Buy milk",
    description: "", color: "#ffffff", category: [...]}], stored at
    address 7 with its category array at address 1, and the component as
    it stands once mounted with it. *)
Definition exampleTask (categories : list Category) : Task :=
  <["name" := VString "Buy milk"]>
    (<["description" := VString ""]>
       (<["color" := VString "#ffffff"]>
          (<["category" := VArray 1 categories]> ∅))).

Definition exampleProps (categories : list Category) : EditTaskProps :=
  {| open := true; task := Some (7, exampleTask categories) |}.

Definition exampleState (categories : list Category) : State :=
  {| editedTask := Some (exampleTask categories); nameError := false;
     descriptionError := false; emoji := None;
     selectedCategories := VArray 1 categories |}.

Definition exampleComponent (categories : list Category) : Component :=
  {| props := exampleProps categories; state := exampleState categories |}.

(** The same component after the user retyped the name, picked another
    color and deselected every category (the new, empty selection is the
    array at address 2). *)
Definition editedState (categories : list Category) : State :=
  {| editedTask :=
       Some (<["category" := VArray 2 []]>
               (<["color" := VString "#ff0000"]>
                  (<["name" := VString "Buy oat milk"]>
                     (exampleTask categories))));
     nameError := false; descriptionError := false; emoji := None;
     selectedCategories := VArray 2 [] |}.

Definition editedComponent (categories : list Category) : Component :=
  {| props := exampleProps categories; state := editedState categories |}.

(** The same component after the user deleted the whole name. *)
Definition emptyNameComponent (categories : list Category) : Component :=
  {| props := exampleProps categories;
     state := withEditedTask
                (Some (<["name" := VString ""]> (exampleTask categories)))
                (exampleState categories) |}.

(** Another task, at address 8, that has no [category] property. *)
Definition otherTask : Task :=
  <["name" := VString "Call mom"]> (<["color" := VString "#00ff00"]> ∅).

Definition otherProps : EditTaskProps :=
  {| open := true; task := Some (8, otherTask) |}.

(** The example task with an emoji, at address 9. *)
Definition smileyTask (categories : list Category) : Task :=
  <["emoji" := VString "1f600"]> (exampleTask categories).

Definition smileyProps (categories : list Category) : EditTaskProps :=
  {| open := true; task := Some (9, smileyTask categories) |}.

(** A session of edits on the example: a new name, a new color, an emoji
    and an empty selection; the draft and the component it ends in. *)
Definition sessionEdits : list Event :=
  [InputChange FName "Buy oat milk"; ColorChange "#ff0000";
   PickEmoji (Some "1f600"); SelectCategories 2 []].

Definition sessionDraft (categories : list Category) : Task :=
  <["category" := VArray 2 []]>
    (<["emoji" := VString "1f600"]>
       (<["color" := VString "#ff0000"]>
          (<["name" := VString "Buy oat milk"]> (exampleTask categories)))).

Definition sessionComponent (categories : list Category) : Component :=
  {| props := exampleProps categories;
     state := {| editedTask := Some (sessionDraft categories);
                 nameError := false; descriptionError := false;
                 emoji := Some "1f600";
                 selectedCategories := VArray 2 [] |} |}.

(** * Properties *)

(** ** Values and objects *)

Lemma object_is_refl (v : value) : object_is v v = true.
Proof. destruct v; simpl; try reflexivity; by apply bool_decide_eq_true. Qed.

Lemma same_deps_refl (d : Deps) : same_deps d d = true.
Proof.
  unfold same_deps. rewrite object_is_refl.
  by rewrite !bool_decide_eq_true_2.
Qed.

Lemma get_insert_eq (o : Task) (k : string) (v : value) :
  get (<[k := v]> o) k = v.
Proof. unfold get. by rewrite lookup_insert_eq. Qed.

Lemma get_insert_ne (o : Task) (k k' : string) (v : value) :
  k ≠ k' → get (<[k := v]> o) k' = get o k'.
Proof. intros Hne. unfold get. by rewrite lookup_insert_ne. Qed.

(** Writing back the value a property already reads changes no read. *)
Lemma same_values_insert_get (o : Task) (k : string) :
  same_values (<[k := get o k]> o) o.
Proof.
  intros k'. destruct (decide (k = k')) as [<- | Hne].
  - apply get_insert_eq.
  - by apply get_insert_ne.
Qed.

Lemma same_values_refl (o : Task) : same_values o o.
Proof. by intros k. Qed.

Lemma js_or_typed (t : Task) :
  category_typed t → js_or (get t "category") VUndefined = get t "category".
Proof. by intros [-> | (ref & items & ->)]. Qed.

(** ** Handlers, as state transformers *)

Lemma handleInputChange_run (name v : string) (st : State) :
  handleInputChange name v st =
    ({| editedTask := Some (<[name := VString v]> (spread (editedTask st)));
        nameError := bool_decide (name = "name")
                     && (TASK_NAME_MAX_LENGTH <? String.length v)%nat;
        descriptionError := bool_decide (name = "description")
                     && (DESCRIPTION_MAX_LENGTH <? String.length v)%nat;
        emoji := emoji st;
        selectedCategories := selectedCategories st |}, []).
Proof.
  unfold handleInputChange, andThen.
  destruct (bool_decide (name = "name") && _),
           (bool_decide (name = "description") && _); reflexivity.
Qed.

Lemma handleSave_run (st : State) (s : State) :
  handleSave st s =
    (s, SetBodyOverflow "auto" ::
        match editedTask st with
        | Some t =>
            if negb (nameError st) && negb (descriptionError st)
            then [OnSave t; ToastSuccess (get t "name")]
            else []
        | None => []
        end).
Proof.
  unfold handleSave, andThen, call, skip.
  destruct (editedTask st) as [t|]; [|reflexivity].
  destruct (negb (nameError st) && negb (descriptionError st)); reflexivity.
Qed.

(** ** The render loop *)

Lemma commit_S (n : nat) (prev : option Deps) (p : EditTaskProps) (st : State) :
  commit (S n) prev p st =
    if changed prev (λ d, negb (same_deps d (deps p st))) then
      let '(st', calls) := useEffects prev p st st in
      match commit n (Some (deps p st)) p st' with
      | Some (st'', calls') => Some (st'', calls ++ calls')
      | None => None
      end
    else Some (st, []).
Proof. reflexivity. Qed.

Lemma commit_stable (n : nat) (d : Deps) (p : EditTaskProps) (st : State) :
  same_deps d (deps p st) = true →
  commit (S n) (Some d) p st = Some (st, []).
Proof. intros H. rewrite commit_S. simpl. by rewrite H. Qed.

(** Only [selectedCategories] may differ from the previous render. *)
Lemma commit_selected (n : nat) (d : Deps) (p : EditTaskProps) (st : State) :
  dep_emoji d = emoji st →
  dep_task d = task_address p →
  commit (S (S n)) (Some d) p st =
    Some (if object_is (dep_selectedCategories d) (selectedCategories st)
          then st
          else withEditedTask
                 (Some (<["category" := js_or (selectedCategories st) VUndefined]>
                          (spread (editedTask st)))) st, []).
Proof.
  intros He Ht.
  destruct (object_is (dep_selectedCategories d) (selectedCategories st)) eqn:Hs.
  - apply commit_stable. unfold same_deps. simpl. rewrite Hs.
    by rewrite !bool_decide_eq_true_2.
  - rewrite commit_S. unfold useEffects, same_deps.
    cbn -[commit]. rewrite Hs, andb_false_r.
    rewrite !bool_decide_eq_true_2 by done.
    cbn -[commit]. rewrite commit_stable; [reflexivity|].
    apply same_deps_refl.
Qed.

(** Effects only queue state updates: they call no collaborator and leave
    [emoji] alone. *)
Lemma useEffects_quiet (prev : option Deps) (p : EditTaskProps) (st s : State) :
  (useEffects prev p st s).2 = [] ∧ emoji (useEffects prev p st s).1 = emoji s.
Proof.
  unfold useEffects.
  destruct (changed prev _), (changed prev _), (changed prev _); by cbn.
Qed.

(** Two rounds of effects always suffice: the first may select other
    categories, the second copies the selection into the draft, and the
    third render finds nothing changed. *)
Lemma commit_run (n : nat) (prev : option Deps) (p : EditTaskProps) (st : State) :
  commit (S (S (S n))) prev p st =
    Some (if changed prev (λ d, negb (same_deps d (deps p st))) then
            let st1 := (useEffects prev p st st).1 in
            if object_is (selectedCategories st) (selectedCategories st1)
            then st1
            else withEditedTask
                   (Some (<["category" :=
                              js_or (selectedCategories st1) VUndefined]>
                            (spread (editedTask st1)))) st1
          else st, []).
Proof.
  rewrite commit_S.
  destruct (changed prev _); [|reflexivity].
  destruct (useEffects_quiet prev p st st) as [Hc He].
  destruct (useEffects prev p st st) as [st1 calls]. cbn [fst snd] in *.
  subst calls. rewrite commit_selected by done. reflexivity.
Qed.

(** The render loop never reaches React's update limit. *)
Lemma commit_total (prev : option Deps) (p : EditTaskProps) (st : State) :
  is_Some (commit NESTED_UPDATE_LIMIT prev p st).
Proof.
  change NESTED_UPDATE_LIMIT with (S (S (S 47))).
  rewrite commit_run. eauto.
Qed.

Lemma mount_total (p : EditTaskProps) (fresh : nat) : is_Some (mount p fresh).
Proof.
  unfold mount. destruct (commit_total None p (initialState p fresh)) as [[st calls] ->].
  eauto.
Qed.

Lemma step_total (c : Component) (e : Event) : is_Some (step c e).
Proof.
  unfold step. destruct (handler c e (state c)) as [st calls].
  destruct (commit_total (Some (deps (props c) (state c))) (next_props c e) st)
    as [[st' calls'] ->].
  eauto.
Qed.

(** One event, with the render loop in closed form. *)
Lemma step_run (c : Component) (e : Event) :
  step c e =
    let st := (handler c e (state c)).1 in
    let p := next_props c e in
    Some ({| props := p;
             state :=
               if same_deps (deps (props c) (state c)) (deps p st) then st
               else
                 let st1 := (useEffects (Some (deps (props c) (state c))) p st st).1 in
                 if object_is (selectedCategories st) (selectedCategories st1)
                 then st1
                 else (categoriesEffect st1 st1).1 |},
          (handler c e (state c)).2).
Proof.
  unfold step. destruct (handler c e (state c)) as [st calls]. cbn [fst snd].
  change NESTED_UPDATE_LIMIT with (S (S (S 47))). rewrite commit_run.
  cbn [changed]. rewrite app_nil_r.
  by destruct (same_deps _ _).
Qed.

(** An event whose handler leaves every dependency alone ends with the
    state its handler queued. *)
Lemma step_stable (c : Component) (e : Event) (st : State) (calls : list Call) :
  handler c e (state c) = (st, calls) →
  same_deps (deps (props c) (state c)) (deps (next_props c e) st) = true →
  step c e = Some ({| props := next_props c e; state := st |}, calls).
Proof.
  intros Hh Hd. rewrite step_run, Hh. cbn [fst snd]. by rewrite Hd.
Qed.

Lemma component_eta (c : Component) : {| props := props c; state := state c |} = c.
Proof. by destruct c. Qed.

(** ** The events one by one *)

Lemma step_InputChange (c : Component) (f : Field) (v : string) :
  step c (InputChange f v) =
    Some ({| props := props c;
             state :=
               {| editedTask :=
                    Some (<[field_name f := VString v]>
                            (spread (editedTask (state c))));
                  nameError :=
                    bool_decide (field_name f = "name")
                    && (TASK_NAME_MAX_LENGTH <? String.length v)%nat;
                  descriptionError :=
                    bool_decide (field_name f = "description")
                    && (DESCRIPTION_MAX_LENGTH <? String.length v)%nat;
                  emoji := emoji (state c);
                  selectedCategories := selectedCategories (state c) |} |}, []).
Proof.
  apply step_stable.
  - cbn [handler]. apply handleInputChange_run.
  - apply same_deps_refl.
Qed.

Lemma step_ClearDeadline (c : Component) :
  step c ClearDeadline =
    Some ({| props := props c;
             state := withEditedTask
                        (Some (<["deadline" := VUndefined]>
                                 (spread (editedTask (state c))))) (state c) |}, []).
Proof. apply step_stable; [reflexivity | apply same_deps_refl]. Qed.

Lemma step_ColorChange (c : Component) (color : string) :
  step c (ColorChange color) =
    Some ({| props := props c;
             state := withEditedTask
                        (Some (<["color" := VString color]>
                                 (spread (editedTask (state c))))) (state c) |}, []).
Proof. apply step_stable; [reflexivity | apply same_deps_refl]. Qed.

Lemma step_PickEmoji (c : Component) (e : option string) :
  step c (PickEmoji e) =
    Some ({| props := props c;
             state :=
               let st := withEmoji e (state c) in
               if bool_decide (emoji (state c) = e) then st
               else (emojiEffect st st).1 |}, []).
Proof.
  rewrite step_run. cbn [handler next_props setEmoji fst snd].
  unfold same_deps, useEffects. cbn.
  rewrite object_is_refl, (bool_decide_eq_true_2 (task_address _ = _)) by done.
  rewrite andb_true_r. cbn.
  destruct (bool_decide (emoji (state c) = e)); [reflexivity|].
  cbn. by rewrite object_is_refl.
Qed.

Lemma step_SelectCategories (c : Component) (ref : nat) (items : list Category) :
  step c (SelectCategories ref items) =
    Some ({| props := props c;
             state :=
               let st := withSelectedCategories (VArray ref items) (state c) in
               if object_is (selectedCategories (state c)) (VArray ref items)
               then st
               else (categoriesEffect st st).1 |}, []).
Proof.
  rewrite step_run. cbn [handler next_props setSelectedCategories fst snd].
  unfold same_deps, useEffects. cbn.
  rewrite !bool_decide_eq_true_2 by done. cbn.
  destruct (object_is (selectedCategories (state c)) (VArray ref items));
    [reflexivity|].
  cbn. by rewrite bool_decide_eq_true_2.
Qed.

(** Cancel and the dialog's own close do the same. *)
Lemma step_close (c : Component) (e : Event) :
  e = Cancel ∨ e = DialogClose →
  step c e =
    Some ({| props := props c;
             state :=
               let st := withSelectedCategories
                           (opt_get (task_object (props c)) "category")
                           (withEditedTask (task_object (props c)) (state c)) in
               if object_is (selectedCategories (state c)) (selectedCategories st)
               then st
               else (categoriesEffect st st).1 |}, [OnClose]).
Proof.
  intros [-> | ->]; rewrite step_run;
    cbn [handler next_props handleCancel dialogOnClose];
    unfold same_deps, useEffects; cbn;
    rewrite !bool_decide_eq_true_2 by done; cbn;
    (destruct (object_is (selectedCategories (state c))
                 (opt_get (task_object (props c)) "category")); [reflexivity|]);
    cbn; by rewrite object_is_refl.
Qed.

Lemma step_Rerender (c : Component) (p : EditTaskProps) :
  step c (Rerender p) =
    Some ({| props := p;
             state :=
               if bool_decide (task_address (props c) = task_address p)
               then state c
               else
                 let st := (taskEffect p (state c)).1 in
                 if object_is (selectedCategories (state c)) (selectedCategories st)
                 then st
                 else (categoriesEffect st st).1 |}, []).
Proof.
  rewrite step_run. cbn [handler next_props skip fst snd].
  unfold same_deps, useEffects. cbn.
  rewrite object_is_refl, (bool_decide_eq_true_2 (emoji _ = _)) by done.
  rewrite andb_true_r. cbn.
  by destruct (bool_decide (task_address (props c) = task_address p)).
Qed.

Lemma mount_run (p : EditTaskProps) (fresh : nat) :
  mount p fresh =
    let st0 := initialState p fresh in
    let st1 := (useEffects None p st0 st0).1 in
    Some ({| props := p;
             state := if object_is (VArray fresh []) (selectedCategories st1)
                      then st1
                      else (categoriesEffect st1 st1).1 |}, []).
Proof.
  unfold mount. change NESTED_UPDATE_LIMIT with (S (S (S 47))).
  rewrite commit_run. reflexivity.
Qed.

(** ** Mirroring the task *)

Lemma insert_category_typed (t : Task) :
  category_typed t →
  same_values (<["category" := js_or (get t "category") VUndefined]> t) t
  ∧ (is_Some (t !! "category") →
     <["category" := js_or (get t "category") VUndefined]> t = t).
Proof.
  intros Hty. rewrite js_or_typed by done. split.
  - apply same_values_insert_get.
  - intros [v Hv]. apply insert_id. unfold get. by rewrite Hv.
Qed.

(** Once the draft is the task and the selection its categories, running
    the categories effect or not makes no difference to what they hold. *)
Lemma mirrors_after_reset (st : State) (t : Task) (b : bool) :
  category_typed t →
  editedTask st = Some t →
  selectedCategories st = get t "category" →
  mirrors (if b then st else (categoriesEffect st st).1) t.
Proof.
  intros Hty Hd Hs. destruct b.
  - split; [|done]. exists t. split; [done|]. split; [apply same_values_refl|done].
  - cbn. rewrite Hd, Hs. cbn.
    destruct (insert_category_typed t Hty) as [Hsame Hid].
    split; [|done]. eauto.
Qed.

Lemma strict_eq_empty (v : value) :
  strict_eq v (VString "") = true ↔ v = VString "".
Proof.
  unfold strict_eq. destruct v; simpl; try (split; [discriminate | congruence]).
  rewrite bool_decide_eq_true. split; congruence.
Qed.

(** ** Saving *)

(** What a click on Save does, whatever the state. *)
Lemma step_Save (c : Component) :
  step c Save =
    Some (c, SetBodyOverflow "auto" ::
             match editedTask (state c) with
             | Some t =>
                 if negb (nameError (state c)) && negb (descriptionError (state c))
                 then [OnSave t; ToastSuccess (get t "name")]
                 else []
             | None => []
             end).
Proof.
  erewrite (step_stable c Save (state c)).
  - cbn [next_props]. rewrite component_eta. reflexivity.
  - cbn [handler]. apply handleSave_run.
  - apply same_deps_refl.
Qed.

(** When the save handler runs with a draft present and both length
    flags false, [onSave] is called exactly once, with the draft as it is
    now, and a success toast naming the draft's [name] follows; the only
    other call is the write to the body's overflow, and the state is left
    as it was. *)
Theorem save_valid_draft (c : Component) (t : Task) :
  editedTask (state c) = Some t →
  nameError (state c) = false →
  descriptionError (state c) = false →
  step c Save =
    Some (c, [SetBodyOverflow "auto"; OnSave t; ToastSuccess (get t "name")]).
Proof.
  intros Ht Hn Hd. rewrite step_Save, Ht, Hn, Hd. reflexivity.
Qed.

(** C10: the save handler does not look at the name.  With a draft whose
    name is the empty string and both flags false the Save button is
    disabled, yet the handler, once invoked, calls [onSave] with that
    draft. *)
Theorem save_handler_accepts_empty_name (c : Component) (t : Task) :
  editedTask (state c) = Some t →
  get t "name" = VString "" →
  nameError (state c) = false →
  descriptionError (state c) = false →
  saveDisabled (state c) = true ∧
  step c Save =
    Some (c, [SetBodyOverflow "auto"; OnSave t; ToastSuccess (VString "")]).
Proof.
  intros Ht Hname Hn Hd. split.
  - unfold saveDisabled. rewrite Ht. cbn [opt_get]. rewrite Hname.
    apply orb_true_r.
  - rewrite step_Save, Ht, Hn, Hd, Hname. reflexivity.
Qed.

(** C9: the save handler first sets the body's overflow to [auto],
    whatever the state; when the draft is missing or a flag is set that
    write is all it does: no [onSave], no toast, and the state is
    unchanged. *)
Theorem save_restores_scrolling_first (c : Component) :
  ∃ calls,
    step c Save = Some (c, SetBodyOverflow "auto" :: calls) ∧
    (editedTask (state c) = None ∨ nameError (state c) = true
       ∨ descriptionError (state c) = true → calls = []).
Proof.
  eexists. split; [apply step_Save|].
  intros [-> | [-> | ->]]; [reflexivity | | ].
  - by destruct (editedTask (state c)).
  - destruct (editedTask (state c)); [|reflexivity].
    by rewrite andb_false_r.
Qed.

(** ** The Save button *)

(** C3: the Save button is disabled exactly when the name flag is set or
    the draft's name is the empty string; the description flag has no part
    in it; with the description flag set, the save handler calls nothing
    but the overflow write. *)
Theorem save_disabled_iff (c : Component) (b : bool) :
  (saveDisabled (state c) = true ↔
     nameError (state c) = true
     ∨ opt_get (editedTask (state c)) "name" = VString "") ∧
  saveDisabled (withDescriptionError b (state c)) = saveDisabled (state c) ∧
  step {| props := props c; state := withDescriptionError true (state c) |} Save =
    Some ({| props := props c; state := withDescriptionError true (state c) |},
          [SetBodyOverflow "auto"]).
Proof.
  split; [|split].
  - unfold saveDisabled. rewrite orb_true_iff, strict_eq_empty. reflexivity.
  - reflexivity.
  - rewrite step_Save. cbn.
    destruct (editedTask (state c)); [|reflexivity].
    by rewrite andb_false_r.
Qed.

(** C8: a draft whose name is the empty string has the Save button
    disabled, whatever the flags and the other properties are. *)
Theorem empty_name_disables_save (st : State) :
  opt_get (editedTask st) "name" = VString "" →
  saveDisabled st = true.
Proof.
  intros H. unfold saveDisabled. rewrite H. apply orb_true_r.
Qed.

(** C4: an input-change event on the name field whose value is longer
    than [TASK_NAME_MAX_LENGTH] leaves the name flag set and the Save button
    disabled. *)
Theorem long_name_disables_save (c : Component) (v : string) :
  TASK_NAME_MAX_LENGTH < String.length v →
  ∃ st,
    step c (InputChange FName v) = Some ({| props := props c; state := st |}, [])
    ∧ nameError st = true
    ∧ saveDisabled st = true.
Proof.
  intros Hlen. apply Nat.ltb_lt in Hlen.
  eexists. split; [apply step_InputChange|].
  unfold saveDisabled. cbn [nameError field_name].
  rewrite Hlen, bool_decide_eq_true_2 by done. by split.
Qed.

(** ** The two flags *)

(** C6: the flags are not independent in the code.  After a description
    longer than [DESCRIPTION_MAX_LENGTH] has set the description flag, any
    input-change event on the name field sets it back to false, although
    the draft still holds the long description. *)
Theorem name_input_clears_description_flag (c : Component) (description name : string) :
  DESCRIPTION_MAX_LENGTH < String.length description →
  ∃ st1 st2,
    step c (InputChange FDescription description)
      = Some ({| props := props c; state := st1 |}, [])
    ∧ descriptionError st1 = true
    ∧ step {| props := props c; state := st1 |} (InputChange FName name)
      = Some ({| props := props c; state := st2 |}, [])
    ∧ descriptionError st2 = false
    ∧ opt_get (editedTask st2) "description" = VString description.
Proof.
  intros Hlen. eexists. eexists.
  split; [apply step_InputChange|].
  split; [cbn; by apply Nat.ltb_lt|].
  split; [rewrite step_InputChange; reflexivity|].
  split; [reflexivity|].
  cbn. rewrite get_insert_ne by done. apply get_insert_eq.
Qed.

(** ** Resetting the draft *)

(** C7: the Cancel button and the dialog's own close (backdrop, escape)
    each call [onClose] once and nothing else, and leave the draft and the
    selection holding the values of the task of the props. *)
Theorem close_restores_task (c : Component) (e : Event) (a : nat) (t : Task) :
  e = Cancel ∨ e = DialogClose →
  task (props c) = Some (a, t) →
  category_typed t →
  ∃ st,
    step c e = Some ({| props := props c; state := st |}, [OnClose])
    ∧ mirrors st t.
Proof.
  intros He Ht Hty. eexists. split; [by apply step_close|].
  unfold task_object. rewrite Ht. cbn [fmap option_fmap option_map snd opt_get].
  by apply mirrors_after_reset.
Qed.

(** C2: when the props bring a task at another address than before (or a
    first task), the draft and the selection end up holding the values of
    the new task and nothing of the old draft; the same holds after the
    first render. *)
Theorem task_change_replaces_draft
    (c : Component) (p : EditTaskProps) (a : nat) (t : Task) (fresh : nat) :
  task p = Some (a, t) →
  category_typed t →
  (task_address (props c) ≠ Some a →
     ∃ st, step c (Rerender p) = Some ({| props := p; state := st |}, [])
           ∧ mirrors st t)
  ∧ ((∀ items, get t "category" ≠ VArray fresh items) →
     ∃ st, mount p fresh = Some ({| props := p; state := st |}, [])
           ∧ mirrors st t).
Proof.
  intros Ht Hty. split.
  - intros Hne. eexists. split; [apply step_Rerender|].
    rewrite bool_decide_eq_false_2
      by (unfold task_address at 2; rewrite Ht; exact Hne).
    unfold taskEffect, task_object, andThen. rewrite Ht.
    cbn [fmap option_fmap option_map snd opt_get setEditedTask
         setSelectedCategories fst].
    by apply mirrors_after_reset.
  - intros Hfresh. eexists. split; [apply mount_run|].
    unfold useEffects, taskEffect, categoriesEffect, initialState, task_object.
    rewrite Ht. cbn -[get].
    destruct Hty as [Hu | (ref & items & Ha)].
    + rewrite Hu. cbn. rewrite insert_insert_eq.
      split; [|done]. exists (<["category" := VUndefined]> t).
      split; [done|]. rewrite <- Hu. split.
      * apply same_values_insert_get.
      * intros [v Hv]. apply insert_id. unfold get. by rewrite Hv.
    + rewrite Ha. cbn.
      rewrite bool_decide_eq_false_2
        by (intros ->; by apply (Hfresh items)).
      cbn. rewrite insert_insert_eq.
      split; [|done]. exists (<["category" := VArray ref items]> t).
      split; [done|]. rewrite <- Ha. split.
      * apply same_values_insert_get.
      * intros [v Hv]. apply insert_id. unfold get. by rewrite Hv.
Qed.

(** ** The selection and the draft's category *)

(** The shape every selection-changing event ends in: the categories
    effect ran exactly when the selection differs from the old one. *)
Lemma category_after_effect (old : value) (st : State) :
  object_is old
    (selectedCategories
       (if object_is old (selectedCategories st) then st
        else (categoriesEffect st st).1)) = false →
  opt_get (editedTask (if object_is old (selectedCategories st) then st
                       else (categoriesEffect st st).1)) "category"
  = js_or (selectedCategories
             (if object_is old (selectedCategories st) then st
              else (categoriesEffect st st).1)) VUndefined.
Proof.
  destruct (object_is old (selectedCategories st)) eqn:Hs; [congruence|].
  intros _. cbn. apply get_insert_eq.
Qed.

(** C5, as the code has it: after any event that changed the selection,
    the draft's [category] is the new list whenever there is one, empty or
    not, and reads as unset when the selection became [undefined]. *)
Theorem changed_selection_sets_category
    (c c' : Component) (e : Event) (calls : list Call) :
  step c e = Some (c', calls) →
  object_is (selectedCategories (state c)) (selectedCategories (state c')) = false →
  (∀ ref items,
     selectedCategories (state c') = VArray ref items →
     opt_get (editedTask (state c')) "category" = VArray ref items)
  ∧ (selectedCategories (state c') = VUndefined →
     opt_get (editedTask (state c')) "category" = VUndefined).
Proof.
  intros Hstep Hsel.
  assert (opt_get (editedTask (state c')) "category"
          = js_or (selectedCategories (state c')) VUndefined) as Hcat.
  { destruct e.
    - rewrite step_Rerender in Hstep. injection Hstep as <- _.
      cbn [state] in *.
      destruct (bool_decide _); [by rewrite object_is_refl in Hsel|].
      by apply (category_after_effect (selectedCategories (state c))
                  (taskEffect p (state c)).1).
    - rewrite step_InputChange in Hstep. injection Hstep as <- _.
      cbn in Hsel. by rewrite object_is_refl in Hsel.
    - rewrite step_ClearDeadline in Hstep. injection Hstep as <- _.
      cbn in Hsel. by rewrite object_is_refl in Hsel.
    - rewrite step_PickEmoji in Hstep. injection Hstep as <- _.
      cbn [state] in Hsel. cbv zeta in Hsel.
      destruct (bool_decide _); cbn in Hsel; by rewrite object_is_refl in Hsel.
    - rewrite step_SelectCategories in Hstep. injection Hstep as <- _.
      cbn [state] in *.
      by apply (category_after_effect (selectedCategories (state c))
                  (withSelectedCategories (VArray ref items) (state c))).
    - rewrite step_ColorChange in Hstep. injection Hstep as <- _.
      cbn in Hsel. by rewrite object_is_refl in Hsel.
    - rewrite step_Save in Hstep. injection Hstep as <- _.
      by rewrite object_is_refl in Hsel.
    - rewrite (step_close c Cancel) in Hstep by auto. injection Hstep as <- _.
      cbn [state] in *.
      by apply (category_after_effect (selectedCategories (state c))
                  (withSelectedCategories
                     (opt_get (task_object (props c)) "category")
                     (withEditedTask (task_object (props c)) (state c)))).
    - rewrite (step_close c DialogClose) in Hstep by auto.
      injection Hstep as <- _.
      cbn [state] in *.
      by apply (category_after_effect (selectedCategories (state c))
                  (withSelectedCategories
                     (opt_get (task_object (props c)) "category")
                     (withEditedTask (task_object (props c)) (state c)))). }
  rewrite Hcat. split.
  - by intros ref items ->.
  - by intros ->.
Qed.

(** * Further properties of the component *)

Lemma opt_get_insert_eq (d : option Task) (k : string) (v : value) :
  opt_get (Some (<[k := v]> (spread d))) k = v.
Proof. apply get_insert_eq. Qed.

Lemma opt_get_insert_ne (d : option Task) (k k' : string) (v : value) :
  k ≠ k' → opt_get (Some (<[k := v]> (spread d))) k' = opt_get d k'.
Proof.
  intros Hne. cbn [opt_get]. rewrite get_insert_ne by done.
  by destruct d.
Qed.

Lemma spread_Some (t : Task) : spread (Some t) = t.
Proof. reflexivity. Qed.

Lemma field_name_inj (f g : Field) : field_name f = field_name g → f = g.
Proof. by destruct f, g. Qed.

(** ** Typing into the inputs *)

(** X1: an input change writes the typed text into the draft property
    named by the input, changes no other property, calls nobody, leaves
    the picked emoji and the selection alone, and the input shows the
    text typed. *)
Theorem input_change_recorded (c : Component) (f : Field) (v : string) :
  ∃ st,
    step c (InputChange f v) = Some ({| props := props c; state := st |}, [])
    ∧ opt_get (editedTask st) (field_name f) = VString v
    ∧ (∀ k, k ≠ field_name f →
            opt_get (editedTask st) k = opt_get (editedTask (state c)) k)
    ∧ inputValue st f = VString v
    ∧ emoji st = emoji (state c)
    ∧ selectedCategories st = selectedCategories (state c).
Proof.
  eexists. split; [apply step_InputChange|].
  unfold inputValue. cbn [editedTask emoji selectedCategories].
  rewrite opt_get_insert_eq.
  split; [done|]. split; [|split; [|done]].
  - intros k Hk. by apply opt_get_insert_ne.
  - unfold js_or. cbn [truthy]. by case_bool_decide; subst.
Qed.

(** X2: of two changes of the same input only the second counts: the
    component ends exactly as if the first had never been typed. *)
Theorem input_change_last_wins (c : Component) (f : Field) (v1 v2 : string) :
  ∃ c1,
    step c (InputChange f v1) = Some (c1, [])
    ∧ step c1 (InputChange f v2) = step c (InputChange f v2).
Proof.
  eexists. split; [apply step_InputChange|].
  rewrite !step_InputChange.
  cbn [props state editedTask emoji selectedCategories].
  by rewrite spread_Some, insert_insert_eq.
Qed.

(** X3: after an input change each flag says whether the text just typed
    is too long for its own field: the name flag is set exactly when the
    name input got more than [TASK_NAME_MAX_LENGTH] characters, the
    description flag exactly when the description input got more than
    [DESCRIPTION_MAX_LENGTH]; a text of exactly the limit is accepted. *)
Theorem flags_after_input_change (c : Component) (f : Field) (v : string) :
  ∃ st,
    step c (InputChange f v) = Some ({| props := props c; state := st |}, [])
    ∧ (nameError st = true ↔
         f = FName ∧ TASK_NAME_MAX_LENGTH < String.length v)
    ∧ (descriptionError st = true ↔
         f = FDescription ∧ DESCRIPTION_MAX_LENGTH < String.length v).
Proof.
  eexists. split; [apply step_InputChange|].
  cbn [nameError descriptionError].
  rewrite !andb_true_iff, !bool_decide_eq_true, !Nat.ltb_lt.
  split; split.
  - intros [Hf Hl]. split; [by apply (field_name_inj f FName)|done].
  - by intros [-> Hl].
  - intros [Hf Hl]. split; [by apply (field_name_inj f FDescription)|done].
  - by intros [-> Hl].
Qed.

(** X4: after a change of the name input the Save button is disabled
    exactly when the name typed is empty or longer than
    [TASK_NAME_MAX_LENGTH]. *)
Theorem save_button_after_name_input (c : Component) (v : string) :
  ∃ st,
    step c (InputChange FName v) = Some ({| props := props c; state := st |}, [])
    ∧ (saveDisabled st = true ↔
         v = "" ∨ TASK_NAME_MAX_LENGTH < String.length v).
Proof.
  eexists. split; [apply step_InputChange|].
  unfold saveDisabled. cbn [nameError editedTask field_name].
  rewrite opt_get_insert_eq, orb_true_iff, strict_eq_empty.
  rewrite bool_decide_eq_true_2 by done. cbn [andb]. rewrite Nat.ltb_lt.
  split.
  - intros [H | H]; [by right | left; congruence].
  - intros [-> | H]; [by right | by left].
Qed.

(** ** The deadline and the color *)

(** X5: the clear button of the deadline unsets the draft's [deadline]
    and nothing else: every other property, both flags, the picked emoji
    and the selection stay; afterwards the deadline input is empty and the
    clear button is gone. *)
Theorem clear_deadline_only (c : Component) :
  ∃ st,
    step c ClearDeadline = Some ({| props := props c; state := st |}, [])
    ∧ opt_get (editedTask st) "deadline" = VUndefined
    ∧ (∀ k, k ≠ "deadline" →
            opt_get (editedTask st) k = opt_get (editedTask (state c)) k)
    ∧ inputValue st FDeadline = VString ""
    ∧ clearShown st = false
    ∧ nameError st = nameError (state c)
    ∧ descriptionError st = descriptionError (state c)
    ∧ emoji st = emoji (state c)
    ∧ selectedCategories st = selectedCategories (state c).
Proof.
  eexists. split; [apply step_ClearDeadline|].
  unfold inputValue, clearShown. cbn [withEditedTask editedTask field_name].
  rewrite opt_get_insert_eq.
  split; [done|]. split; [|done].
  intros k Hk. by apply opt_get_insert_ne.
Qed.

(** X6: a color picked in the color picker is written to the draft's
    [color] and nothing else changes; the picker then shows that color,
    or black when the color is the empty string. *)
Theorem color_change_only (c : Component) (color : string) :
  ∃ st,
    step c (ColorChange color) = Some ({| props := props c; state := st |}, [])
    ∧ opt_get (editedTask st) "color" = VString color
    ∧ (∀ k, k ≠ "color" →
            opt_get (editedTask st) k = opt_get (editedTask (state c)) k)
    ∧ pickerColor st = VString (if bool_decide (color = "") then "#000000" else color)
    ∧ nameError st = nameError (state c)
    ∧ descriptionError st = descriptionError (state c)
    ∧ emoji st = emoji (state c)
    ∧ selectedCategories st = selectedCategories (state c).
Proof.
  eexists. split; [apply step_ColorChange|].
  unfold pickerColor. cbn [withEditedTask editedTask].
  rewrite opt_get_insert_eq.
  split; [done|]. split; [|split; [|done]].
  - intros k Hk. by apply opt_get_insert_ne.
  - unfold js_or. cbn [truthy]. by case_bool_decide.
Qed.

(** ** Picking an emoji *)

Lemma withEmoji_same (st : State) : withEmoji (emoji st) st = st.
Proof. by destruct st. Qed.

Lemma step_PickEmoji_same (c : Component) (e : option string) :
  emoji (state c) = e → step c (PickEmoji e) = Some (c, []).
Proof.
  intros <-.
  rewrite step_PickEmoji. cbv zeta. rewrite bool_decide_eq_true_2 by done.
  by rewrite withEmoji_same, component_eta.
Qed.

(** X7: picking an emoji other than the last one picked writes it to the
    draft's [emoji] ([undefined] when the pick is a removal) and changes no
    other property, flag or selection. *)
Theorem pick_emoji_recorded (c : Component) (e : option string) :
  emoji (state c) ≠ e →
  ∃ st,
    step c (PickEmoji e) = Some ({| props := props c; state := st |}, [])
    ∧ emoji st = e
    ∧ opt_get (editedTask st) "emoji" = string_or_undefined e
    ∧ (∀ k, k ≠ "emoji" →
            opt_get (editedTask st) k = opt_get (editedTask (state c)) k)
    ∧ nameError st = nameError (state c)
    ∧ descriptionError st = descriptionError (state c)
    ∧ selectedCategories st = selectedCategories (state c).
Proof.
  intros Hne. eexists. split; [apply step_PickEmoji|].
  cbv zeta. rewrite bool_decide_eq_false_2 by done.
  cbn [emojiEffect updateEditedTask fst withEditedTask withEmoji editedTask
       emoji nameError descriptionError selectedCategories].
  rewrite opt_get_insert_eq.
  split; [done|]. split; [done|]. split; [|done].
  intros k Hk. by apply opt_get_insert_ne.
Qed.

(** X8: picking the emoji that was picked last (or a removal when none was
    ever picked) changes nothing at all, whatever emoji the draft holds:
    the emoji effect runs only when the picked value changes. *)
Theorem pick_same_emoji_ignored (c : Component) (e : option string) :
  emoji (state c) = e →
  step c (PickEmoji e) = Some (c, []).
Proof. apply step_PickEmoji_same. Qed.

(** X9: an emoji picked, cancelled and picked again is lost: the cancel
    puts the task's emoji back into the draft but keeps the picked value,
    so the second pick of the same emoji leaves the draft with the task's
    emoji. *)
Theorem repick_after_cancel_lost
    (c : Component) (a : nat) (t : Task) (e : option string) :
  task (props c) = Some (a, t) →
  emoji (state c) ≠ e →
  ∃ c1 c2,
    step c (PickEmoji e) = Some (c1, [])
    ∧ opt_get (editedTask (state c1)) "emoji" = string_or_undefined e
    ∧ step c1 Cancel = Some (c2, [OnClose])
    ∧ opt_get (editedTask (state c2)) "emoji" = get t "emoji"
    ∧ step c2 (PickEmoji e) = Some (c2, []).
Proof.
  intros Ht Hne. eexists. eexists.
  split; [apply step_PickEmoji|].
  cbv zeta. rewrite bool_decide_eq_false_2 by done.
  split; [apply opt_get_insert_eq|].
  split; [by apply step_close; left|].
  cbn [props state]. unfold task_object. rewrite Ht.
  cbn [fmap option_fmap option_map snd opt_get].
  split.
  - destruct (object_is _ _); [reflexivity|].
    cbn. by rewrite get_insert_ne.
  - apply step_PickEmoji_same. cbn [state]. by destruct (object_is _ _).
Qed.

(** ** What an event may change and whom it may call *)

(** The effects never touch the flags: after an event they are as its
    handler left them, and the calls are the handler's. *)
Lemma step_flags_calls (c c' : Component) (e : Event) (calls : list Call) :
  step c e = Some (c', calls) →
  nameError (state c') = nameError (handler c e (state c)).1
  ∧ descriptionError (state c') = descriptionError (handler c e (state c)).1
  ∧ calls = (handler c e (state c)).2.
Proof.
  rewrite step_run. cbv zeta. intros [= <- <-]. cbn [state].
  destruct (same_deps _ _); [done|].
  unfold useEffects.
  destruct (changed _ _), (changed _ _), (changed _ _);
    cbn; destruct (object_is _ _); done.
Qed.

(** X10: only an input change touches the validation flags.  Cancel, the
    dialog's close, new props, emoji, color, category and deadline actions
    and Save all leave both flags as they were. *)
Theorem only_inputs_touch_flags
    (c c' : Component) (e : Event) (calls : list Call) :
  (∀ f v, e ≠ InputChange f v) →
  step c e = Some (c', calls) →
  nameError (state c') = nameError (state c)
  ∧ descriptionError (state c') = descriptionError (state c).
Proof.
  intros Hne Hstep.
  destruct (step_flags_calls c c' e calls Hstep) as (-> & -> & _).
  destruct e; cbn [handler]; try done.
  - by destruct (Hne f value0).
  - by rewrite handleSave_run.
Qed.

(** X11: [onClose] is called by Cancel and by the dialog's own close, once
    each, and by nothing else: Save does not close the dialog, and no
    edit, pick or new props calls any collaborator. *)
Theorem calls_of_event (c c' : Component) (e : Event) (calls : list Call) :
  step c e = Some (c', calls) →
  match e with
  | Save => OnClose ∉ calls
  | Cancel | DialogClose => calls = [OnClose]
  | _ => calls = []
  end.
Proof.
  intros Hstep.
  destruct (step_flags_calls c c' e calls Hstep) as (_ & _ & ->).
  destruct e; cbn [handler]; try done.
  - by rewrite handleInputChange_run.
  - rewrite handleSave_run. cbn [snd].
    destruct (editedTask (state c)); [destruct (_ && _)|];
      intros H; repeat (apply elem_of_cons in H as [H | H]; [done|]);
      by apply elem_of_nil in H.
Qed.

(** X12: a click on an enabled Save button never hands [onSave] a draft
    whose name is the empty string: what it passes is the current draft,
    its name is not [""] and both flags are clear. *)
Theorem enabled_save_passes_named_draft
    (c c' : Component) (calls : list Call) (t : Task) :
  saveDisabled (state c) = false →
  step c Save = Some (c', calls) →
  OnSave t ∈ calls →
  editedTask (state c) = Some t
  ∧ get t "name" ≠ VString ""
  ∧ nameError (state c) = false
  ∧ descriptionError (state c) = false.
Proof.
  unfold saveDisabled. intros Hd. apply orb_false_iff in Hd as [Hn Hname].
  rewrite step_Save. intros [= _ <-] Hin.
  apply elem_of_cons in Hin as [Hin | Hin]; [done|].
  destruct (editedTask (state c)) as [d|] eqn:Hdraft;
    [|by apply elem_of_nil in Hin].
  destruct (descriptionError (state c));
    [rewrite andb_false_r in Hin; by apply elem_of_nil in Hin|].
  rewrite Hn in Hin. cbn in Hin.
  apply elem_of_cons in Hin as [[= ->] | Hin].
  - split; [done|]. split; [|done].
    intros Hempty. cbn [opt_get] in Hname. rewrite Hempty in Hname.
    by rewrite (proj2 (strict_eq_empty _)) in Hname.
  - apply elem_of_cons in Hin as [Hin | Hin]; [done|].
    by apply elem_of_nil in Hin.
Qed.

(** ** Without a task *)

Lemma mount_None (o : bool) (fresh : nat) :
  mount {| open := o; task := None |} fresh =
    Some ({| props := {| open := o; task := None |};
             state := {| editedTask := Some {["category" := VUndefined]};
                         nameError := false; descriptionError := false;
                         emoji := None; selectedCategories := VUndefined |} |},
          []).
Proof.
  rewrite mount_run. cbv zeta.
  unfold useEffects, taskEffect, categoriesEffect, emojiEffect, initialState,
    task_object.
  cbn. by rewrite insert_insert_eq, insert_empty.
Qed.

(** X13: mounted without a task the component still builds a draft: the
    object whose only property is an [undefined] [category].  Nothing is
    selected, the Save button is enabled, and a click on it hands that
    nameless object to [onSave]. *)
Theorem mount_without_task (o : bool) (fresh : nat) :
  ∃ c,
    mount {| open := o; task := None |} fresh = Some (c, [])
    ∧ props c = {| open := o; task := None |}
    ∧ editedTask (state c) = Some {["category" := VUndefined]}
    ∧ selectedCategories (state c) = VUndefined
    ∧ saveDisabled (state c) = false
    ∧ step c Save =
        Some (c, [SetBodyOverflow "auto";
                  OnSave {["category" := VUndefined]};
                  ToastSuccess VUndefined]).
Proof.
  eexists. split; [apply mount_None|].
  split; [reflexivity|]. split; [reflexivity|]. split; [reflexivity|].
  split; [reflexivity|].
  rewrite step_Save. reflexivity.
Qed.

(** ** The render loop *)

(** X14: the render loop always settles within three renders, far from
    React's limit: more fuel gives the same result, and neither mounting
    nor any event can fail. *)
Theorem render_loop_settles
    (n : nat) (prev : option Deps) (p : EditTaskProps) (st : State)
    (c : Component) (e : Event) (fresh : nat) :
  commit (S (S (S n))) prev p st = commit 3 prev p st
  ∧ is_Some (commit 3 prev p st)
  ∧ is_Some (mount p fresh)
  ∧ is_Some (step c e).
Proof.
  split; [by rewrite !commit_run|].
  split; [rewrite commit_run; eauto|].
  split; [rewrite mount_run; eauto | rewrite step_run; eauto].
Qed.

(** ** Invariants of a session *)

(** From [H : Some (x, _) = Some (c, _)] replace [c] by [x], leaving [x] as
    it is written. *)
Ltac component_of H :=
  apply (inj Some) in H; apply (f_equal fst) in H; cbn [fst] in H; subst.

Lemma mount_draft_present (p : EditTaskProps) (fresh : nat)
    (c : Component) (calls : list Call) :
  mount p fresh = Some (c, calls) → is_Some (editedTask (state c)).
Proof.
  rewrite mount_run. cbv zeta. intros H. component_of H. cbn [state].
  destruct (object_is _ _); unfold useEffects; cbn; eauto.
Qed.

Lemma same_address_present (p q : EditTaskProps) :
  task_address p = task_address q → is_Some (task q) → is_Some (task p).
Proof.
  unfold task_address. by destruct (task p), (task q).
Qed.

Lemma step_keeps_draft (c c' : Component) (e : Event) (calls : list Call) :
  step c e = Some (c', calls) →
  (is_Some (task (props c)) → is_Some (editedTask (state c))) →
  is_Some (task (props c')) → is_Some (editedTask (state c')).
Proof.
  intros Hstep IH. destruct e.
  - rewrite step_Rerender in Hstep. component_of Hstep. cbn [props state].
    case_bool_decide as Haddr.
    + intros Hp. apply IH. by apply (same_address_present _ p).
    + intros [x Hx]. cbv zeta. unfold taskEffect, task_object, andThen.
      rewrite Hx. cbn. destruct (object_is _ _); cbn; eauto.
  - rewrite step_InputChange in Hstep. component_of Hstep. cbn. eauto.
  - rewrite step_ClearDeadline in Hstep. component_of Hstep. cbn. eauto.
  - rewrite step_PickEmoji in Hstep. component_of Hstep. cbn [props state].
    cbv zeta. case_bool_decide; cbn; eauto.
  - rewrite step_SelectCategories in Hstep. component_of Hstep.
    cbn [props state]. cbv zeta. destruct (object_is _ _); cbn; eauto.
  - rewrite step_ColorChange in Hstep. component_of Hstep. cbn. eauto.
  - rewrite step_Save in Hstep. by component_of Hstep.
  - rewrite (step_close c Cancel) in Hstep by auto. component_of Hstep.
    cbn [props state]. intros [x Hx]. cbv zeta. unfold task_object.
    rewrite Hx. cbn. destruct (object_is _ _); cbn; eauto.
  - rewrite (step_close c DialogClose) in Hstep by auto.
    component_of Hstep.
    cbn [props state]. intros [x Hx]. cbv zeta. unfold task_object.
    rewrite Hx. cbn. destruct (object_is _ _); cbn; eauto.
Qed.

(** X15: in a session that starts with the mount, whatever the events,
    the draft is an object in every render whose props bring a task: the
    [editedTask?.] guards of the form only ever meet [undefined] while no
    task is supplied. *)
Theorem draft_present_while_task
    (p : EditTaskProps) (fresh : nat) (es : list Event)
    (c0 c : Component) (calls0 calls : list Call) :
  mount p fresh = Some (c0, calls0) →
  run c0 es = Some (c, calls) →
  is_Some (task (props c)) →
  is_Some (editedTask (state c)).
Proof.
  intros Hmount Hrun.
  assert (is_Some (task (props c0)) → is_Some (editedTask (state c0))) as Hinv
    by (intros _; by eapply mount_draft_present).
  clear Hmount. revert c0 calls Hinv Hrun.
  induction es as [|e es IH]; intros c0 calls Hinv Hrun.
  - by injection Hrun as <- _.
  - cbn [run] in Hrun.
    destruct (step c0 e) as [[c1 calls1]|] eqn:Hstep; [|done].
    destruct (run c1 es) as [[c2 calls2]|] eqn:Hrest; [|done].
    injection Hrun as <- _.
    eapply IH; [|exact Hrest].
    by eapply step_keeps_draft.
Qed.

Lemma object_is_trans (a b d : value) :
  object_is a b = true → object_is b d = true → object_is a d = true.
Proof.
  destruct a, b; cbn; try done; destruct d; cbn; try done;
    rewrite !bool_decide_eq_true; congruence.
Qed.

Lemma js_or_same_array (v : value) (ref : nat) (items : list Category) :
  object_is v (VArray ref items) = true → js_or v VUndefined = v.
Proof. by destruct v. Qed.

Lemma categoriesEffect_in_sync (st : State) : in_sync (categoriesEffect st st).1.
Proof.
  unfold in_sync. cbn. rewrite get_insert_eq. apply object_is_refl.
Qed.

Lemma reset_in_sync (p : EditTaskProps) (st : State) :
  props_typed p →
  in_sync (withSelectedCategories (opt_get (task_object p) "category")
             (withEditedTask (task_object p) st)).
Proof.
  unfold props_typed, in_sync. cbn.
  destruct (task_object p) as [t|]; [|done].
  intros Hty. cbn. rewrite js_or_typed by done. apply object_is_refl.
Qed.

Lemma update_in_sync (st : State) (k : string) (v : value) :
  k ≠ "category" →
  in_sync st →
  in_sync (withEditedTask (Some (<[k := v]> (spread (editedTask st)))) st).
Proof.
  unfold in_sync. intros Hk Hs. cbn [withEditedTask editedTask selectedCategories].
  by rewrite opt_get_insert_ne.
Qed.

Lemma step_keeps_sync (c c' : Component) (e : Event) (calls : list Call) :
  step c e = Some (c', calls) →
  event_typed e →
  props_typed (props c) ∧ in_sync (state c) →
  props_typed (props c') ∧ in_sync (state c').
Proof.
  intros Hstep Hev [Hty Hs]. destruct e.
  - rewrite step_Rerender in Hstep. component_of Hstep. cbn [props state].
    split; [exact Hev|]. case_bool_decide; [done|]. cbv zeta.
    destruct (object_is _ _); [|apply categoriesEffect_in_sync].
    by apply reset_in_sync.
  - rewrite step_InputChange in Hstep. component_of Hstep.
    split; [done|].
    unfold in_sync in *. cbn [state editedTask selectedCategories].
    rewrite opt_get_insert_ne; [done | by destruct f].
  - rewrite step_ClearDeadline in Hstep. component_of Hstep.
    split; [done|]. by apply update_in_sync.
  - rewrite step_PickEmoji in Hstep. component_of Hstep.
    split; [done|]. cbn [state]. cbv zeta. case_bool_decide; [done|].
    by apply (update_in_sync (withEmoji e (state c))).
  - rewrite step_SelectCategories in Hstep. component_of Hstep.
    split; [done|]. cbn [state]. cbv zeta.
    destruct (object_is _ _) eqn:Hsame; [|apply categoriesEffect_in_sync].
    unfold in_sync in *. cbn.
    eapply object_is_trans; [exact Hs|].
    by rewrite (js_or_same_array _ ref items).
  - rewrite step_ColorChange in Hstep. component_of Hstep.
    split; [done|]. by apply update_in_sync.
  - rewrite step_Save in Hstep. by component_of Hstep.
  - rewrite (step_close c Cancel) in Hstep by auto. component_of Hstep.
    split; [done|]. cbn [state]. cbv zeta.
    destruct (object_is _ _); [|apply categoriesEffect_in_sync].
    by apply reset_in_sync.
  - rewrite (step_close c DialogClose) in Hstep by auto.
    component_of Hstep.
    split; [done|]. cbn [state]. cbv zeta.
    destruct (object_is _ _); [|apply categoriesEffect_in_sync].
    by apply reset_in_sync.
Qed.

Lemma mount_in_sync (p : EditTaskProps) (fresh : nat)
    (c : Component) (calls : list Call) :
  mount p fresh = Some (c, calls) → props c = p ∧ in_sync (state c).
Proof.
  rewrite mount_run. cbv zeta. intros H. component_of H.
  split; [done|]. cbn [state].
  destruct (object_is _ _) eqn:Hsame; [|apply categoriesEffect_in_sync].
  unfold in_sync, useEffects in *. cbn in *.
  rewrite get_insert_eq.
  destruct (opt_get (task_object p) "category"); try done.
Qed.

(** X16: in a session that starts with the mount and whose tasks have a
    [category] of the declared type, the draft's [category] and the
    selection shown by the category selector are the same array (or both
    unset) after every event: what Save would pass is what is selected. *)
Theorem category_in_sync
    (p : EditTaskProps) (fresh : nat) (es : list Event)
    (c0 c : Component) (calls0 calls : list Call) :
  props_typed p →
  Forall event_typed es →
  mount p fresh = Some (c0, calls0) →
  run c0 es = Some (c, calls) →
  in_sync (state c).
Proof.
  intros Hty Hes Hmount Hrun.
  assert (props_typed (props c0) ∧ in_sync (state c0)) as Hinv.
  { destruct (mount_in_sync _ _ _ _ Hmount) as [-> Hs]. by split. }
  clear Hmount Hty. revert c0 calls Hinv Hrun.
  induction Hes as [|e es He Hes IH]; intros c0 calls Hinv Hrun.
  - injection Hrun as <- _. apply Hinv.
  - cbn [run] in Hrun.
    destruct (step c0 e) as [[c1 calls1]|] eqn:Hstep; [|done].
    destruct (run c1 es) as [[c2 calls2]|] eqn:Hrest; [|done].
    injection Hrun as <- _.
    eapply IH; [|exact Hrest].
    by eapply step_keeps_sync.
Qed.

(** ** Stale flags *)

(** X17: the name flag is forgotten as soon as another input changes.
    After a name longer than [TASK_NAME_MAX_LENGTH] has disabled the Save
    button, any change of the description (within its limit) or of the
    deadline enables it again, and Save then hands the over-long name to
    [onSave]. *)
Theorem long_name_saved_after_other_input
    (c : Component) (name : string) (f : Field) (v : string) :
  TASK_NAME_MAX_LENGTH < String.length name →
  f ≠ FName →
  (f = FDescription → (String.length v ≤ DESCRIPTION_MAX_LENGTH)%nat) →
  ∃ c1 c2 t,
    step c (InputChange FName name) = Some (c1, [])
    ∧ saveDisabled (state c1) = true
    ∧ step c1 (InputChange f v) = Some (c2, [])
    ∧ saveDisabled (state c2) = false
    ∧ editedTask (state c2) = Some t
    ∧ get t "name" = VString name
    ∧ step c2 Save =
        Some (c2, [SetBodyOverflow "auto"; OnSave t; ToastSuccess (VString name)]).
Proof.
  intros Hlen Hf Hdesc.
  assert (name ≠ "") as Hname by (intros ->; cbn in Hlen; lia).
  assert (bool_decide (field_name f = "name") = false) as Hfn
    by (apply bool_decide_eq_false_2; by destruct f).
  assert (bool_decide (field_name f = "description")
          && (DESCRIPTION_MAX_LENGTH <? String.length v)%nat = false) as Hfd.
  { apply andb_false_iff. destruct f; [done | right | by left].
    apply Nat.ltb_ge. by apply Hdesc. }
  assert (get (<[field_name f := VString v]>
                 (<["name" := VString name]> (spread (editedTask (state c)))))
              "name" = VString name) as Hget.
  { rewrite get_insert_ne by (by destruct f). apply get_insert_eq. }
  eexists. eexists. eexists.
  split; [apply step_InputChange|].
  split.
  { unfold saveDisabled. cbn [state nameError field_name].
    rewrite bool_decide_eq_true_2 by done.
    by rewrite (proj2 (Nat.ltb_lt _ _) Hlen). }
  split; [rewrite step_InputChange; reflexivity|].
  cbn [state props editedTask nameError descriptionError field_name].
  rewrite spread_Some.
  split.
  { unfold saveDisabled. cbn [nameError editedTask opt_get].
    rewrite Hfn, Hget. cbn. by apply bool_decide_eq_false_2. }
  split; [reflexivity|]. split; [exact Hget|].
  rewrite step_Save. cbn [state editedTask nameError descriptionError].
  by rewrite Hfn, Hfd, Hget.
Qed.

(** X18: Cancel restores the draft but not the flags.  After a name longer
    than [TASK_NAME_MAX_LENGTH] was typed and cancelled, the draft holds
    the task again, yet the name flag is still set and the Save button
    still disabled. *)
Theorem cancel_keeps_name_flag
    (c : Component) (e : Event) (a : nat) (t : Task) (name : string) :
  e = Cancel ∨ e = DialogClose →
  task (props c) = Some (a, t) →
  category_typed t →
  TASK_NAME_MAX_LENGTH < String.length name →
  ∃ c1 c2,
    step c (InputChange FName name) = Some (c1, [])
    ∧ step c1 e = Some (c2, [OnClose])
    ∧ mirrors (state c2) t
    ∧ nameError (state c2) = true
    ∧ saveDisabled (state c2) = true.
Proof.
  intros He Ht Hty Hlen. apply Nat.ltb_lt in Hlen.
  eexists. eexists.
  split; [apply step_InputChange|].
  split; [by apply step_close|].
  cbn [props state]. unfold task_object. rewrite Ht.
  cbn [fmap option_fmap option_map snd opt_get].
  assert (∀ st : State, nameError st = true → saveDisabled st = true) as Hdis
    by (intros st Hst; unfold saveDisabled; by rewrite Hst).
  match goal with
  | |- mirrors (if ?b then ?st else _) _ ∧ _ =>
      assert (nameError (if b then st else (categoriesEffect st st).1) = true)
        as Hflag
        by (destruct b;
            cbn [nameError withSelectedCategories withEditedTask
                 categoriesEffect updateEditedTask fst field_name];
            rewrite Hlen; by rewrite bool_decide_eq_true_2)
  end.
  split; [by apply mirrors_after_reset|].
  split; [exact Hflag | by apply Hdis].
Qed.

(** * Saving after a session of edits *)

(** From [H : Some (x, l) = Some (c, calls)] replace [c] by [x] and
    [calls] by [l], leaving both as they are written. *)
Ltac result_of H :=
  apply (inj Some) in H; apply pair_equal_spec in H as [<- <-].

Lemma edit_at_field (f : Field) (v : string) (k : string) :
  edit_at (InputChange f v) k
  = if decide (field_name f = k) then Some (VString v) else None.
Proof. reflexivity. Qed.

Lemma field_name_not (f : Field) (k : string) :
  k = "emoji" ∨ k = "category" ∨ k = "color" → field_name f ≠ k.
Proof. intros [-> | [-> | ->]]; by destruct f. Qed.

(** What one edit does to the draft, the selection and the picked emoji. *)
Lemma edit_step (c0 c1 : Component) (e : Event) (calls : list Call) :
  is_edit e →
  step c0 e = Some (c1, calls) →
  calls = []
  ∧ (∀ k, k ≠ "emoji" → k ≠ "category" →
          opt_get (editedTask (state c1)) k
          = default (opt_get (editedTask (state c0)) k) (edit_at e k))
  ∧ selectedCategories (state c1)
    = default (selectedCategories (state c0)) (edit_at e "category")
  ∧ (edit_at e "category" = None →
     opt_get (editedTask (state c1)) "category"
     = opt_get (editedTask (state c0)) "category")
  ∧ emoji (state c1) = last_pick (emoji (state c0)) [e]
  ∧ opt_get (editedTask (state c1)) "emoji"
    = (if picks_other (emoji (state c0)) [e]
       then string_or_undefined (last_pick (emoji (state c0)) [e])
       else opt_get (editedTask (state c0)) "emoji").
Proof.
  intros He Hstep. destruct e; try done.
  - rewrite step_InputChange in Hstep. result_of Hstep.
    split; [done|]. cbn [state editedTask selectedCategories emoji].
    split; [|split; [|split; [|split]]].
    + intros k _ _. rewrite edit_at_field. case_decide as Hk.
      * subst k. apply opt_get_insert_eq.
      * by apply opt_get_insert_ne.
    + rewrite edit_at_field.
      rewrite decide_False by (apply field_name_not; auto). done.
    + intros _. apply opt_get_insert_ne. apply field_name_not; auto.
    + done.
    + cbn [picks_other]. apply opt_get_insert_ne. apply field_name_not; auto.
  - rewrite step_ClearDeadline in Hstep. result_of Hstep.
    split; [done|]. cbn [state withEditedTask editedTask selectedCategories emoji].
    split; [|split; [|split; [|split]]].
    + intros k _ _. unfold edit_at, edit_of. case_decide as Hk.
      * subst k. apply opt_get_insert_eq.
      * by apply opt_get_insert_ne.
    + done.
    + intros _. by apply opt_get_insert_ne.
    + done.
    + cbn [picks_other]. by apply opt_get_insert_ne.
  - rewrite step_PickEmoji in Hstep. result_of Hstep.
    split; [done|]. cbn [state last_pick picks_other]. cbv zeta.
    rewrite orb_false_r.
    case_bool_decide as Hsame.
    + subst e. rewrite bool_decide_eq_true_2 by done. cbn [negb].
      rewrite withEmoji_same. repeat split; try done.
      intros k Hk _. unfold edit_at, edit_of. by rewrite decide_False.
    + rewrite bool_decide_eq_false_2 by done. cbn [negb].
      cbn [emojiEffect updateEditedTask fst withEditedTask withEmoji
           editedTask selectedCategories emoji].
      split; [|split; [|split; [|split]]].
      * intros k Hk _. unfold edit_at, edit_of. rewrite decide_False by done.
        by apply opt_get_insert_ne.
      * done.
      * intros _. by apply opt_get_insert_ne.
      * done.
      * apply opt_get_insert_eq.
  - rewrite step_SelectCategories in Hstep. result_of Hstep.
    split; [done|]. cbn [state last_pick picks_other]. cbv zeta.
    unfold edit_at, edit_of. rewrite decide_True by done.
    destruct (object_is _ _);
      cbn [categoriesEffect updateEditedTask fst withEditedTask
           withSelectedCategories editedTask selectedCategories emoji default].
    + repeat split; try done.
      intros k _ Hk. by rewrite decide_False.
    + split; [|split; [|split; [|split]]]; try done.
      * intros k _ Hk. rewrite decide_False by done.
        by apply opt_get_insert_ne.
      * by apply opt_get_insert_ne.
  - rewrite step_ColorChange in Hstep. result_of Hstep.
    split; [done|]. cbn [state withEditedTask editedTask selectedCategories emoji].
    split; [|split; [|split; [|split]]].
    + intros k _ _. unfold edit_at, edit_of. case_decide as Hk.
      * subst k. apply opt_get_insert_eq.
      * by apply opt_get_insert_ne.
    + done.
    + intros _. by apply opt_get_insert_ne.
    + done.
    + cbn [picks_other]. by apply opt_get_insert_ne.
Qed.

Lemma last_pick_cons (cell : option string) (e : Event) (es : list Event) :
  last_pick cell (e :: es) = last_pick (last_pick cell [e]) es.
Proof. by destruct e. Qed.

Lemma picks_other_cons (cell : option string) (e : Event) (es : list Event) :
  picks_other cell (e :: es) = picks_other cell [e] || picks_other cell es.
Proof. destruct e; cbn; by rewrite ?orb_false_r. Qed.

Lemma picks_other_false (cell : option string) (es : list Event) :
  picks_other cell es = false → last_pick cell es = cell.
Proof.
  induction es as [|e es IH]; [done|].
  destruct e; cbn; try done.
  intros [Hsame Hrest]%orb_false_iff.
  apply negb_false_iff, bool_decide_eq_true in Hsame. subst. by apply IH.
Qed.

(** Without an edit of the emoji there is no pick. *)
Lemma last_edit_emoji_None (cell : option string) (es : list Event) :
  last_edit es "emoji" = None → picks_other cell es = false.
Proof.
  induction es as [|e es IH]; [done|].
  cbn [last_edit]. destruct (last_edit es "emoji"); [done|].
  intros He. destruct e; cbn; try by apply IH.
  unfold edit_at, edit_of in He. by rewrite decide_True in He.
Qed.

(** The last edit of the emoji is the last pick. *)
Lemma last_edit_emoji_Some (cell : option string) (es : list Event) (v : value) :
  last_edit es "emoji" = Some v → v = string_or_undefined (last_pick cell es).
Proof.
  revert cell. induction es as [|e es IH]; intros cell; [done|].
  cbn [last_edit]. rewrite last_pick_cons.
  destruct (last_edit es "emoji") as [v'|] eqn:Hes.
  - intros [= <-]. by apply IH.
  - intros He.
    rewrite (picks_other_false _ es) by (by apply last_edit_emoji_None).
    destruct e; cbn in He |- *; try done; case_decide; try done.
    + by destruct f.
    + by injection He as <-.
Qed.

(** A category edit brings an array. *)
Lemma last_edit_category (es : list Event) (v : value) :
  last_edit es "category" = Some v → js_or v VUndefined = v.
Proof.
  induction es as [|e es IH]; [done|].
  cbn [last_edit]. destruct (last_edit es "category") as [v'|].
  - intros [= <-]. by apply IH.
  - destruct e; cbn; try done; case_decide; try done.
    + by destruct f.
    + by intros [= <-].
Qed.

Lemma edit_keeps_sync (c0 c1 : Component) (e : Event) (calls : list Call) :
  is_edit e →
  step c0 e = Some (c1, calls) →
  in_sync (state c0) → in_sync (state c1).
Proof.
  intros He Hstep Hs. destruct e; try done.
  - rewrite step_InputChange in Hstep. component_of Hstep.
    unfold in_sync in *. cbn [state editedTask selectedCategories].
    rewrite opt_get_insert_ne; [done | by destruct f].
  - rewrite step_ClearDeadline in Hstep. component_of Hstep.
    by apply update_in_sync.
  - rewrite step_PickEmoji in Hstep. component_of Hstep.
    cbn [state]. cbv zeta. case_bool_decide; [done|].
    by apply (update_in_sync (withEmoji e (state c0))).
  - rewrite step_SelectCategories in Hstep. component_of Hstep.
    cbn [state]. cbv zeta.
    destruct (object_is _ _) eqn:Hsame; [|apply categoriesEffect_in_sync].
    unfold in_sync in *. cbn.
    eapply object_is_trans; [exact Hs|].
    by rewrite (js_or_same_array _ ref items).
  - rewrite step_ColorChange in Hstep. component_of Hstep.
    by apply update_in_sync.
Qed.

(** What a session of edits leaves in the draft, the selection and the
    picked emoji, in terms of the last edit of each property. *)
Lemma edits_recorded (es : list Event) (c0 c : Component) (calls : list Call) :
  Forall is_edit es →
  run c0 es = Some (c, calls) →
  calls = []
  ∧ (in_sync (state c0) → in_sync (state c))
  ∧ (∀ k, k ≠ "emoji" → k ≠ "category" →
          opt_get (editedTask (state c)) k
          = default (opt_get (editedTask (state c0)) k) (last_edit es k))
  ∧ selectedCategories (state c)
    = default (selectedCategories (state c0)) (last_edit es "category")
  ∧ (last_edit es "category" = None →
     opt_get (editedTask (state c)) "category"
     = opt_get (editedTask (state c0)) "category")
  ∧ emoji (state c) = last_pick (emoji (state c0)) es
  ∧ opt_get (editedTask (state c)) "emoji"
    = (if picks_other (emoji (state c0)) es
       then string_or_undefined (last_pick (emoji (state c0)) es)
       else opt_get (editedTask (state c0)) "emoji").
Proof.
  intros Hes. revert c0 calls.
  induction Hes as [|e es He Hes IH]; intros c0 calls Hrun.
  - cbn in Hrun. result_of Hrun. by repeat split.
  - cbn [run] in Hrun.
    destruct (step c0 e) as [[c1 calls1]|] eqn:Hstep; [|done].
    destruct (run c1 es) as [[c2 calls2]|] eqn:Hrest; [|done].
    result_of Hrun.
    destruct (edit_step _ _ _ _ He Hstep) as (-> & A1 & B1 & C1 & D1 & E1).
    destruct (IH _ _ Hrest) as (-> & S2 & A2 & B2 & C2 & D2 & E2).
    split; [done|]. split; [|split; [|split; [|split; [|split]]]].
    + intros Hs. apply S2. by eapply edit_keeps_sync.
    + intros k Hk1 Hk2. rewrite A2, A1 by done. cbn [last_edit].
      by destruct (last_edit es k).
    + rewrite B2, B1. cbn [last_edit].
      by destruct (last_edit es "category").
    + cbn [last_edit]. destruct (last_edit es "category") eqn:Hl; [done|].
      intros Hnone. by rewrite C2, C1.
    + by rewrite D2, D1, (last_pick_cons _ e es).
    + rewrite E2, E1, D1, (picks_other_cons _ e es), (last_pick_cons _ e es).
      destruct (picks_other (emoji (state c0)) [e]) eqn:H1.
      * cbn [orb].
        destruct (picks_other (last_pick (emoji (state c0)) [e]) es) eqn:H2;
          [reflexivity|].
        by rewrite (picks_other_false _ es).
      * cbn [orb]. by rewrite (picks_other_false _ [e]).
Qed.


End EditTask.

Arguments VUndefined {Category}.
Arguments VNull {Category}.
Arguments VBool {Category} b.
Arguments VNumber {Category} n.
Arguments VString {Category} s.
Arguments VArray {Category} ref items.
Arguments VObject {Category} ref.
Arguments get {Category} o k.
Arguments opt_get {Category} o k.
Arguments same_values {Category} a b.
Arguments category_typed {Category} t.
Arguments object_is {Category} a b.
Arguments open {Category} _.
Arguments task {Category} _.
Arguments task_address {Category} p.
Arguments editedTask {Category} _.
Arguments nameError {Category} _.
Arguments descriptionError {Category} _.
Arguments emoji {Category} _.
Arguments selectedCategories {Category} _.
Arguments withDescriptionError {Category} b s.
Arguments withNameError {Category} b s.
Arguments mirrors {Category} st t.
Arguments OnClose {Category}.
Arguments OnSave {Category} editedTask.
Arguments ToastSuccess {Category} name.
Arguments SetBodyOverflow {Category} overflow.
Arguments Rerender {Category} p.
Arguments InputChange {Category} f value.
Arguments SelectCategories {Category} ref items.
Arguments Save {Category}.
Arguments Cancel {Category}.
Arguments DialogClose {Category}.
Arguments props {Category} _.
Arguments state {Category} _.
Arguments saveDisabled {Category} st.
Arguments mount {Category} p fresh.
Arguments step {Category} TASK_NAME_MAX_LENGTH DESCRIPTION_MAX_LENGTH c e.
Arguments exampleTask {Category} categories.
Arguments exampleProps {Category} categories.
Arguments exampleState {Category} categories.
Arguments exampleComponent {Category} categories.
Arguments editedState {Category} categories.
Arguments editedComponent {Category} categories.
Arguments emptyNameComponent {Category} categories.
Arguments otherTask {Category}.
Arguments otherProps {Category}.

(** * The example, run

    Categories are numbered, a name may have 40 characters and a
    description 350. *)

(** Mounting the dialog on the example task gives the example component. *)
Example mount_example :
  mount (exampleProps [3]) 0 = Some (exampleComponent [3], []).
Proof. vm_compute. reflexivity. Qed.

(** The example of the specification: retyping the name as
    ["Buy oat milk"] leaves the flag unset and Save enabled, and Save hands
    the retyped task to [onSave]. *)
Example retype_and_save :
  ∃ c,
    step 40 350 (exampleComponent [3]) (InputChange FName "Buy oat milk")
      = Some (c, [])
    ∧ nameError (state c) = false
    ∧ saveDisabled (state c) = false
    ∧ step 40 350 c Save =
        Some (c, [SetBodyOverflow "auto";
                  OnSave (<["name" := VString "Buy oat milk"]> (exampleTask [3]));
                  ToastSuccess (VString "Buy oat milk")]).
Proof.
  eexists. split; [vm_compute; reflexivity|].
  repeat split; vm_compute; reflexivity.
Qed.

(** ** The theorems at the example *)

Lemma save_valid_draft_witness :
  editedTask (state (editedComponent [3])) =
    Some (<["category" := VArray 2 []]>
            (<["color" := VString "#ff0000"]>
               (<["name" := VString "Buy oat milk"]> (exampleTask [3]))))
  ∧ nameError (state (editedComponent [3])) = false
  ∧ descriptionError (state (editedComponent [3])) = false
  ∧ step 40 350 (editedComponent [3]) Save =
      Some (editedComponent [3],
            [SetBodyOverflow "auto";
             OnSave (<["category" := VArray 2 []]>
                       (<["color" := VString "#ff0000"]>
                          (<["name" := VString "Buy oat milk"]>
                             (exampleTask [3]))));
             ToastSuccess
               (get (<["category" := VArray 2 []]>
                       (<["color" := VString "#ff0000"]>
                          (<["name" := VString "Buy oat milk"]>
                             (exampleTask [3])))) "name")]).
Proof.
  split; [reflexivity|]. split; [reflexivity|]. split; [reflexivity|].
  apply (save_valid_draft nat 40 350 (editedComponent [3])); reflexivity.
Defined.

Lemma save_handler_accepts_empty_name_witness :
  editedTask (state (emptyNameComponent [3])) =
    Some (<["name" := VString ""]> (exampleTask [3]))
  ∧ get (<["name" := VString ""]> (exampleTask [3])) "name" = VString ""
  ∧ nameError (state (emptyNameComponent [3])) = false
  ∧ descriptionError (state (emptyNameComponent [3])) = false
  ∧ saveDisabled (state (emptyNameComponent [3])) = true
  ∧ step 40 350 (emptyNameComponent [3]) Save =
      Some (emptyNameComponent [3],
            [SetBodyOverflow "auto";
             OnSave (<["name" := VString ""]> (exampleTask [3]));
             ToastSuccess (VString "")]).
Proof.
  split; [reflexivity|]. split; [vm_compute; reflexivity|].
  split; [reflexivity|]. split; [reflexivity|].
  apply (save_handler_accepts_empty_name nat 40 350 (emptyNameComponent [3]));
    [reflexivity | vm_compute; reflexivity | reflexivity | reflexivity].
Defined.

Lemma save_restores_scrolling_first_witness :
  descriptionError
    (state {| props := exampleProps [3];
              state := withDescriptionError true (exampleState [3]) |}) = true
  ∧ ∃ calls,
      step 40 350
        {| props := exampleProps [3];
           state := withDescriptionError true (exampleState [3]) |} Save =
        Some ({| props := exampleProps [3];
                 state := withDescriptionError true (exampleState [3]) |},
              SetBodyOverflow "auto" :: calls)
      ∧ calls = [].
Proof.
  split; [reflexivity|].
  destruct (save_restores_scrolling_first nat 40 350
              {| props := exampleProps [3];
                 state := withDescriptionError true (exampleState [3]) |})
    as (calls & Hstep & Hblocked).
  exists calls. split; [exact Hstep|].
  apply Hblocked. right. right. reflexivity.
Defined.

Lemma save_disabled_iff_witness :
  (saveDisabled (state (emptyNameComponent [3])) = true ↔
     nameError (state (emptyNameComponent [3])) = true
     ∨ opt_get (editedTask (state (emptyNameComponent [3]))) "name" = VString "")
  ∧ saveDisabled (withDescriptionError true (state (emptyNameComponent [3])))
    = saveDisabled (state (emptyNameComponent [3]))
  ∧ step 40 350
      {| props := props (emptyNameComponent [3]);
         state := withDescriptionError true (state (emptyNameComponent [3])) |}
      Save =
    Some ({| props := props (emptyNameComponent [3]);
             state := withDescriptionError true (state (emptyNameComponent [3])) |},
          [SetBodyOverflow "auto"]).
Proof. exact (save_disabled_iff nat 40 350 (emptyNameComponent [3]) true). Defined.

Lemma empty_name_disables_save_witness :
  opt_get (editedTask (withDescriptionError true
                         (withNameError true (state (emptyNameComponent [3])))))
    "name" = VString ""
  ∧ saveDisabled (withDescriptionError true
                    (withNameError true (state (emptyNameComponent [3])))) = true.
Proof.
  split; [vm_compute; reflexivity|].
  apply (empty_name_disables_save nat). vm_compute. reflexivity.
Defined.

Lemma long_name_disables_save_witness :
  40 < String.length "Buy oat milk, rye bread and two dozen eggs"
  ∧ ∃ st,
      step 40 350 (exampleComponent [3])
        (InputChange FName "Buy oat milk, rye bread and two dozen eggs")
      = Some ({| props := props (exampleComponent [3]); state := st |}, [])
      ∧ nameError st = true
      ∧ saveDisabled st = true.
Proof.
  split; [cbn; lia|].
  apply (long_name_disables_save nat 40 350 (exampleComponent [3])). cbn. lia.
Defined.

(** A description of 360 characters, typed into the example, and then one
    keystroke in the name field. *)
Lemma name_input_clears_description_flag_witness :
  350 < String.length (String.concat "" (replicate 36 "Buy milk. "))
  ∧ ∃ st1 st2,
      step 40 350 (exampleComponent [3])
        (InputChange FDescription (String.concat "" (replicate 36 "Buy milk. ")))
      = Some ({| props := props (exampleComponent [3]); state := st1 |}, [])
      ∧ descriptionError st1 = true
      ∧ step 40 350 {| props := props (exampleComponent [3]); state := st1 |}
          (InputChange FName "Buy oat milk")
        = Some ({| props := props (exampleComponent [3]); state := st2 |}, [])
      ∧ descriptionError st2 = false
      ∧ opt_get (editedTask st2) "description"
        = VString (String.concat "" (replicate 36 "Buy milk. ")).
Proof.
  split; [vm_compute; lia|].
  apply (name_input_clears_description_flag nat 40 350 (exampleComponent [3])).
  vm_compute. lia.
Defined.

Lemma close_restores_task_witness :
  (@Cancel nat = Cancel ∨ @Cancel nat = DialogClose)
  ∧ task (props (editedComponent [3])) = Some (7, exampleTask [3])
  ∧ category_typed (exampleTask [3])
  ∧ ∃ st,
      step 40 350 (editedComponent [3]) Cancel
      = Some ({| props := props (editedComponent [3]); state := st |}, [OnClose])
      ∧ mirrors st (exampleTask [3]).
Proof.
  assert (category_typed (exampleTask [3])) as Hty.
  { right. exists 1, [3]. vm_compute. reflexivity. }
  split; [left; reflexivity|]. split; [reflexivity|]. split; [exact Hty|].
  apply (close_restores_task nat 40 350 (editedComponent [3]) Cancel 7);
    [left; reflexivity | reflexivity | exact Hty].
Defined.

Lemma task_change_replaces_draft_witness :
  task otherProps = Some (8, @otherTask nat)
  ∧ category_typed (@otherTask nat)
  ∧ task_address (props (editedComponent [3])) ≠ Some 8
  ∧ (∀ items, get (@otherTask nat) "category" ≠ VArray 0 items)
  ∧ (∃ st, step 40 350 (editedComponent [3]) (Rerender otherProps)
           = Some ({| props := otherProps; state := st |}, [])
           ∧ mirrors st otherTask)
  ∧ (∃ st, mount otherProps 0 = Some ({| props := otherProps; state := st |}, [])
           ∧ mirrors st (@otherTask nat)).
Proof.
  assert (category_typed (@otherTask nat)) as Hty.
  { left. vm_compute. reflexivity. }
  assert (task_address (props (editedComponent [3])) ≠ Some 8) as Hne.
  { vm_compute. discriminate. }
  assert (∀ items, get (@otherTask nat) "category" ≠ VArray 0 items) as Hfresh.
  { intros items. vm_compute. discriminate. }
  split; [reflexivity|]. split; [exact Hty|]. split; [exact Hne|].
  split; [exact Hfresh|].
  destruct (task_change_replaces_draft nat 40 350 (editedComponent [3])
              otherProps 8 otherTask 0 eq_refl Hty) as [Hstep Hmount].
  split; [exact (Hstep Hne) | exact (Hmount Hfresh)].
Defined.

(** The user deselects the last category of the example: the selection
    becomes a new, empty array. *)
Lemma changed_selection_sets_category_witness :
  step 40 350 (exampleComponent [3]) (SelectCategories 2 [])
  = Some ({| props := exampleProps [3];
             state := {| editedTask :=
                           Some (<["category" := VArray 2 []]> (exampleTask [3]));
                         nameError := false; descriptionError := false;
                         emoji := None;
                         selectedCategories := VArray 2 [] |} |}, [])
  ∧ object_is (selectedCategories (state (exampleComponent [3])))
              (@VArray nat 2 []) = false
  ∧ opt_get (Some (<["category" := VArray 2 []]> (exampleTask [3]))) "category"
    = @VArray nat 2 [].
Proof.
  assert (step 40 350 (exampleComponent [3]) (SelectCategories 2 [])
          = Some ({| props := exampleProps [3];
                     state := {| editedTask :=
                                   Some (<["category" := VArray 2 []]>
                                           (exampleTask [3]));
                                 nameError := false; descriptionError := false;
                                 emoji := None;
                                 selectedCategories := VArray 2 [] |} |}, []))
    as Hstep.
  { vm_compute. reflexivity. }
  split; [exact Hstep|]. split; [reflexivity|].
  exact (proj1 (changed_selection_sets_category nat 40 350 _ _ _ _ Hstep eq_refl)
           2 [] eq_refl).
Defined.

(** C5 as the specification words it fails: an empty new selection is
    copied into the draft like any other; the draft's [category] is then
    the empty array, not unset. *)
Lemma empty_selection_is_copied :
  ∃ c,
    step 40 350 (exampleComponent [3]) (SelectCategories 2 []) = Some (c, [])
    ∧ selectedCategories (state c) = VArray 2 []
    ∧ spread nat (editedTask (state c)) !! "category" = Some (VArray 2 [])
    ∧ opt_get (editedTask (state c)) "category" ≠ VUndefined.
Proof.
  eexists. split; [vm_compute; reflexivity|].
  split; [reflexivity|]. split; [vm_compute; reflexivity|].
  vm_compute. discriminate.
Qed.

Arguments string_or_undefined {Category} s.
Arguments PickEmoji {Category} e.
Arguments ClearDeadline {Category}.
Arguments ColorChange {Category} color.
Arguments clearShown {Category} st.
Arguments inputValue {Category} st f.
Arguments pickerColor {Category} st.
Arguments run {Category} TASK_NAME_MAX_LENGTH DESCRIPTION_MAX_LENGTH c es.
Arguments props_typed {Category} p.
Arguments event_typed {Category} e.
Arguments in_sync {Category} st.

(** ** The further properties at the example *)

(** A short session on the example: retype the name, deselect the
    categories, cancel.  It ends where it began. *)
Example session_example :
  run 40 350 (exampleComponent [3])
    [InputChange FName "Buy oat milk"; SelectCategories 2 []; Cancel]
  = Some (exampleComponent [3], [OnClose]).
Proof. vm_compute. reflexivity. Qed.

Lemma pick_emoji_recorded_witness :
  emoji (state (exampleComponent [3])) ≠ Some "1f600"
  ∧ ∃ st,
      step 40 350 (exampleComponent [3]) (PickEmoji (Some "1f600"))
      = Some ({| props := props (exampleComponent [3]); state := st |}, [])
      ∧ emoji st = Some "1f600"
      ∧ opt_get (editedTask st) "emoji" = string_or_undefined (Some "1f600")
      ∧ (∀ k, k ≠ "emoji" →
              opt_get (editedTask st) k
              = opt_get (editedTask (state (exampleComponent [3]))) k)
      ∧ nameError st = nameError (state (exampleComponent [3]))
      ∧ descriptionError st = descriptionError (state (exampleComponent [3]))
      ∧ selectedCategories st = selectedCategories (state (exampleComponent [3])).
Proof.
  split; [discriminate|].
  apply (pick_emoji_recorded nat 40 350 (exampleComponent [3]) (Some "1f600")).
  discriminate.
Defined.

Lemma pick_same_emoji_ignored_witness :
  emoji (state (exampleComponent [3])) = None
  ∧ step 40 350 (exampleComponent [3]) (PickEmoji None)
    = Some (exampleComponent [3], []).
Proof.
  split; [reflexivity|].
  apply (pick_same_emoji_ignored nat 40 350 (exampleComponent [3]) None).
  reflexivity.
Defined.

Lemma repick_after_cancel_lost_witness :
  task (props (exampleComponent [3])) = Some (7, exampleTask [3])
  ∧ emoji (state (exampleComponent [3])) ≠ Some "1f600"
  ∧ ∃ c1 c2,
      step 40 350 (exampleComponent [3]) (PickEmoji (Some "1f600")) = Some (c1, [])
      ∧ opt_get (editedTask (state c1)) "emoji"
        = string_or_undefined (Some "1f600")
      ∧ step 40 350 c1 Cancel = Some (c2, [OnClose])
      ∧ opt_get (editedTask (state c2)) "emoji" = get (exampleTask [3]) "emoji"
      ∧ step 40 350 c2 (PickEmoji (Some "1f600")) = Some (c2, []).
Proof.
  split; [reflexivity|]. split; [discriminate|].
  apply (repick_after_cancel_lost nat 40 350 (exampleComponent [3]) 7);
    [reflexivity | discriminate].
Defined.

Lemma only_inputs_touch_flags_witness :
  (∀ f v, @Cancel nat ≠ InputChange f v)
  ∧ step 40 350 (editedComponent [3]) Cancel
    = Some (exampleComponent [3], [OnClose])
  ∧ nameError (state (exampleComponent [3]))
    = nameError (state (editedComponent [3]))
  ∧ descriptionError (state (exampleComponent [3]))
    = descriptionError (state (editedComponent [3])).
Proof.
  assert (∀ f v, @Cancel nat ≠ InputChange f v) as Hne by discriminate.
  assert (step 40 350 (editedComponent [3]) Cancel
          = Some (exampleComponent [3], [OnClose])) as Hstep
    by (vm_compute; reflexivity).
  split; [exact Hne|]. split; [exact Hstep|].
  exact (only_inputs_touch_flags nat 40 350 _ _ _ _ Hne Hstep).
Defined.

Lemma calls_of_event_witness :
  step 40 350 (editedComponent [3]) DialogClose
  = Some (exampleComponent [3], [OnClose])
  ∧ [@OnClose nat] = [OnClose].
Proof.
  assert (step 40 350 (editedComponent [3]) DialogClose
          = Some (exampleComponent [3], [OnClose])) as Hstep
    by (vm_compute; reflexivity).
  split; [exact Hstep|].
  exact (calls_of_event nat 40 350 _ _ _ _ Hstep).
Defined.

Lemma enabled_save_passes_named_draft_witness :
  saveDisabled (state (exampleComponent [3])) = false
  ∧ step 40 350 (exampleComponent [3]) Save
    = Some (exampleComponent [3],
            [SetBodyOverflow "auto"; OnSave (exampleTask [3]);
             ToastSuccess (VString "Buy milk")])
  ∧ OnSave (exampleTask [3])
      ∈ [SetBodyOverflow "auto"; OnSave (exampleTask [3]);
         ToastSuccess (VString "Buy milk")]
  ∧ editedTask (state (exampleComponent [3])) = Some (exampleTask [3])
  ∧ get (exampleTask [3]) "name" ≠ VString ""
  ∧ nameError (state (exampleComponent [3])) = false
  ∧ descriptionError (state (exampleComponent [3])) = false.
Proof.
  assert (saveDisabled (state (exampleComponent [3])) = false) as Hd
    by (vm_compute; reflexivity).
  assert (step 40 350 (exampleComponent [3]) Save
          = Some (exampleComponent [3],
                  [SetBodyOverflow "auto"; OnSave (exampleTask [3]);
                   ToastSuccess (VString "Buy milk")])) as Hstep
    by (vm_compute; reflexivity).
  assert (OnSave (exampleTask [3])
            ∈ [SetBodyOverflow "auto"; OnSave (exampleTask [3]);
               ToastSuccess (VString "Buy milk")]) as Hin
    by (apply list_elem_of_further, list_elem_of_here).
  split; [exact Hd|]. split; [exact Hstep|]. split; [exact Hin|].
  exact (enabled_save_passes_named_draft nat 40 350 _ _ _ _ Hd Hstep Hin).
Defined.

Lemma draft_present_while_task_witness :
  mount (exampleProps [3]) 0 = Some (exampleComponent [3], [])
  ∧ run 40 350 (exampleComponent [3])
      [InputChange FName "Buy oat milk"; SelectCategories 2 []; Cancel]
    = Some (exampleComponent [3], [OnClose])
  ∧ is_Some (task (props (exampleComponent [3])))
  ∧ is_Some (editedTask (state (exampleComponent [3]))).
Proof.
  assert (mount (exampleProps [3]) 0 = Some (exampleComponent [3], [])) as Hm
    by (vm_compute; reflexivity).
  assert (run 40 350 (exampleComponent [3])
            [InputChange FName "Buy oat milk"; SelectCategories 2 []; Cancel]
          = Some (exampleComponent [3], [OnClose])) as Hr
    by (vm_compute; reflexivity).
  assert (is_Some (task (props (exampleComponent [3])))) as Ht by (cbn; eauto).
  split; [exact Hm|]. split; [exact Hr|]. split; [exact Ht|].
  exact (draft_present_while_task nat 40 350 _ _ _ _ _ _ _ Hm Hr Ht).
Defined.

Lemma category_in_sync_witness :
  props_typed (exampleProps [3])
  ∧ Forall event_typed
      [InputChange FName "Buy oat milk"; SelectCategories 2 []; @Cancel nat]
  ∧ mount (exampleProps [3]) 0 = Some (exampleComponent [3], [])
  ∧ run 40 350 (exampleComponent [3])
      [InputChange FName "Buy oat milk"; SelectCategories 2 []; Cancel]
    = Some (exampleComponent [3], [OnClose])
  ∧ in_sync (state (exampleComponent [3])).
Proof.
  assert (props_typed (exampleProps [3])) as Hty.
  { right. exists 1, [3]. vm_compute. reflexivity. }
  assert (Forall event_typed
            [InputChange FName "Buy oat milk"; SelectCategories 2 [];
             @Cancel nat]) as Hes
    by (repeat constructor).
  assert (mount (exampleProps [3]) 0 = Some (exampleComponent [3], [])) as Hm
    by (vm_compute; reflexivity).
  assert (run 40 350 (exampleComponent [3])
            [InputChange FName "Buy oat milk"; SelectCategories 2 []; Cancel]
          = Some (exampleComponent [3], [OnClose])) as Hr
    by (vm_compute; reflexivity).
  split; [exact Hty|]. split; [exact Hes|]. split; [exact Hm|].
  split; [exact Hr|].
  exact (category_in_sync nat 40 350 _ _ _ _ _ _ _ Hty Hes Hm Hr).
Defined.

Lemma long_name_saved_after_other_input_witness :
  40 < String.length "Buy oat milk, rye bread and two dozen eggs"
  ∧ FDeadline ≠ FName
  ∧ (FDeadline = FDescription → (String.length "2024-05-01T10:00" ≤ 350)%nat)
  ∧ ∃ c1 c2 t,
      step 40 350 (exampleComponent [3])
        (InputChange FName "Buy oat milk, rye bread and two dozen eggs")
      = Some (c1, [])
      ∧ saveDisabled (state c1) = true
      ∧ step 40 350 c1 (InputChange FDeadline "2024-05-01T10:00") = Some (c2, [])
      ∧ saveDisabled (state c2) = false
      ∧ editedTask (state c2) = Some t
      ∧ get t "name" = VString "Buy oat milk, rye bread and two dozen eggs"
      ∧ step 40 350 c2 Save =
          Some (c2, [SetBodyOverflow "auto"; OnSave t;
                     ToastSuccess
                       (VString "Buy oat milk, rye bread and two dozen eggs")]).
Proof.
  split; [cbn; lia|]. split; [discriminate|]. split; [discriminate|].
  apply (long_name_saved_after_other_input nat 40 350 (exampleComponent [3]));
    [cbn; lia | discriminate | discriminate].
Defined.

Lemma cancel_keeps_name_flag_witness :
  (@Cancel nat = Cancel ∨ @Cancel nat = DialogClose)
  ∧ task (props (exampleComponent [3])) = Some (7, exampleTask [3])
  ∧ category_typed (exampleTask [3])
  ∧ 40 < String.length "Buy oat milk, rye bread and two dozen eggs"
  ∧ ∃ c1 c2,
      step 40 350 (exampleComponent [3])
        (InputChange FName "Buy oat milk, rye bread and two dozen eggs")
      = Some (c1, [])
      ∧ step 40 350 c1 Cancel = Some (c2, [OnClose])
      ∧ mirrors (state c2) (exampleTask [3])
      ∧ nameError (state c2) = true
      ∧ saveDisabled (state c2) = true.
Proof.
  assert (category_typed (exampleTask [3])) as Hty.
  { right. exists 1, [3]. vm_compute. reflexivity. }
  split; [by left|]. split; [reflexivity|]. split; [exact Hty|].
  split; [cbn; lia|].
  apply (cancel_keeps_name_flag nat 40 350 (exampleComponent [3]) Cancel 7);
    [by left | reflexivity | exact Hty | cbn; lia].
Defined.

Arguments is_edit {Category} e.
Arguments last_edit {Category} es k.
Arguments picks_other {Category} cell es.
Arguments sessionEdits {Category}.
Arguments sessionDraft {Category} categories.
Arguments sessionComponent {Category} categories.
Arguments smileyTask {Category} categories.
Arguments smileyProps {Category} categories.

(** ** Saving after a session, at the example *)


